(** * Spark NLP Python client layer: a shallow embedding

    The Python layer builds bridge wrapper objects, forwards calls to a
    JVM-hosted library and wraps the returned handles.  This development
    embeds the parts of it that carry local behaviour:

    - [sparknlp/internal/__init__.py]: the bridge wrapper constructors
      (module [Internal]);
    - [sparknlp/pretrained.py]: [printProgress], [ResourceDownloader] and
      [PretrainedPipeline] (module [Pretrained]);
    - [sparknlp/annotator/embeddings/xlnet_embeddings.py]: the parameter
      facade of [XlnetEmbeddings] (module [Xlnet]);
    - [sparknlp/spellchecker/rnn_lm.py]: the learning-rate schedule, the
      line parser and the epoch loop of [RNNLM] (module [RnnLm]).

    Remote calls and numerical-framework operations are not part of the
    repository; they appear as section variables, so every theorem holds
    for whatever the remote side computes. *)

From Stdlib Require Import ZArith List String Ascii QArith Qminmax Lia SpecFloat.
From stdpp Require Import base gmap strings list.

Local Set Warnings "-register-all".
Local Open Scope Z_scope.

(** ** Python values, exceptions and call binding *)

Module Py.

(** Opaque reference to an object living in the JVM. *)
Definition handle := positive.

(** The Python values that cross the functions embedded here. *)
Inductive value : Type :=
| VNone
| VBool (b : bool)
| VInt (z : Z)
| VFloat (f : spec_float)
| VStr (s : string)
| VList (l : list value)
| VJava (h : handle).

(** Truth value of an object, as [if x:] / [not x] test it. *)
Definition truthy (v : value) : bool :=
  match v with
  | VNone => false
  | VBool b => b
  | VInt z => negb (z =? 0)
  | VFloat f => match f with S754_zero _ => false | _ => true end
  | VStr s => negb (String.eqb s "")
  | VList l => match l with [] => false | _ :: _ => true end
  | VJava _ => true
  end.

(** A Python [float] is a binary floating-point number: a signed zero,
    an infinity, a NaN, or [(-1)^s * m * 2^e].  [float.is_integer] and
    [int(x)] on the floats it accepts: *)
Definition float_is_integer (f : spec_float) : bool :=
  match f with
  | S754_zero _ => true
  | S754_finite _ m e => (0 <=? e) || (Z.pos m mod 2 ^ (- e) =? 0)
  | S754_infinity _ | S754_nan => false
  end.

Definition float_to_int (f : spec_float) : Z :=
  match f with
  | S754_finite s m e =>
      let a := if 0 <=? e then Z.pos m * 2 ^ e else Z.pos m / 2 ^ (- e) in
      if s then - a else a
  | _ => 0
  end.

(** [float(n)] on an [int] rounds to the nearest double and raises
    [OverflowError] when that would be [2 ** 1024] or more, that is from
    halfway between the largest double and [2 ** 1024] on. *)
Definition float_halfway : Z := 2 ^ 1024 - 2 ^ 970.
Definition int_fits_float (z : Z) : bool := Z.abs z <? float_halfway.

(** The exceptions raised on the paths embedded here.  [TypeError_missing]
    and [TypeError_too_many] are the two [TypeError]s of argument binding;
    [TypeError_convert] is the one a [TypeConverters] function raises. *)
Inductive exn : Type :=
| TypeError_missing (callee : string) (names : list string)
| TypeError_too_many (callee : string) (takes given : nat)
| TypeError_convert (param : string)
| TypeError_operand
| AttributeError (name : string)
| ZeroDivisionError
| OverflowError
| InvalidArgumentError
| Exception (msg : string)
| JavaError (h : handle).

Inductive result (A : Type) : Type :=
| Ok (a : A)
| Raise (e : exn).
Arguments Ok {A} a.
Arguments Raise {A} e.

#[global] Instance result_ret : MRet result := fun _ a => Ok a.
#[global] Instance result_bind : MBind result := fun _ _ f r =>
  match r with
  | Ok a => f a
  | Raise e => Raise e
  end.
#[global] Instance result_fmap : FMap result := fun _ _ f r =>
  match r with
  | Ok a => Ok (f a)
  | Raise e => Raise e
  end.

Definition raises {A} (r : result A) : Prop := exists e, r = Raise e.

(** A computation that logs events of type [E] and then returns or
    raises; the log records what was done before an exception. *)
Definition io (E A : Type) : Type := list E * result A.

#[global] Instance io_ret {E} : MRet (io E) := fun _ a => ([], Ok a).
#[global] Instance io_bind {E} : MBind (io E) := fun _ _ f m =>
  match m with
  | (t, Ok a) => let '(t', r) := f a in (t ++ t', r)
  | (t, Raise e) => (t, Raise e)
  end.

Definition emit {E} (e : E) : io E unit := ([e], Ok tt).
Definition lift {E A} (r : result A) : io E A := ([], r).

(** A computation is quiet for [p] when it logs no event that [p]
    selects. *)
Definition quiet {E A} (p : E -> bool) (m : io E A) : Prop :=
  List.filter p (fst m) = [].

(** A formal parameter of a [def]: its name and its default, if any. *)
Record param : Type := Param { p_name : string; p_default : option value }.

Definition required (n : string) : param := Param n None.
Definition optional (n : string) (d : value) : param := Param n (Some d).

(** Names of the parameters left without a value and without a default. *)
Fixpoint missing (sig : list param) : list string :=
  match sig with
  | [] => []
  | p :: sig' =>
      match p_default p with
      | None => p_name p :: missing sig'
      | Some _ => missing sig'
      end
  end.

Fixpoint defaults (sig : list param) : list (string * value) :=
  match sig with
  | [] => []
  | p :: sig' =>
      match p_default p with
      | None => defaults sig'
      | Some d => (p_name p, d) :: defaults sig'
      end
  end.

(** Binding of a purely positional call [f(a1, ..., an)] against the
    parameters of [f] (for a method, the ones after [self]): too many
    arguments and a parameter left without value both raise [TypeError]
    before the body runs. *)
Fixpoint bind_from (callee : string) (total given : nat)
    (sig : list param) (args : list value) : result (list (string * value)) :=
  match sig, args with
  | [], [] => Ok []
  | [], _ :: _ => Raise (TypeError_too_many callee total given)
  | p :: sig', a :: args' =>
      bs ← bind_from callee total given sig' args';
      Ok ((p_name p, a) :: bs)
  | _ :: _, [] =>
      match missing sig with
      | [] => Ok (defaults sig)
      | ms => Raise (TypeError_missing callee ms)
      end
  end.

Definition bind (callee : string) (sig : list param) (args : list value)
  : result (list (string * value)) :=
  bind_from callee (length sig) (length args) sig args.

(** [s * n] on a string: [n] copies, none when [n <= 0]. *)
Fixpoint str_repeat (s : string) (n : nat) : string :=
  match n with
  | O => ""
  | S n' => s +:+ str_repeat s n'
  end.
Definition str_mul (s : string) (n : Z) : string := str_repeat s (Z.to_nat n).

(** Slices [l[:-1]] and [l[1:]]; both are empty on the empty list. *)
Definition slice_to_last {A} (l : list A) : list A := take (length l - 1)%nat l.
Definition slice_from_1 {A} (l : list A) : list A := drop 1 l.

End Py.
Import Py.

(** ** sparknlp/internal/__init__.py: bridge wrappers *)

Module Internal.

(** Modelled from the spec: the base class [ExtendedJavaWrapper] is not
    among the sources.  Per the spec a bridge wrapper "wraps a
    fully-qualified remote class name plus constructor arguments" and on
    invocation returns "an opaque remote handle". *)
Record ExtendedJavaWrapper : Type := Wrapper {
  java_obj_name : string;
  java_args : list value
}.

Section Remote.
(** The remote side: what the JVM answers to a call by class name and
    positional arguments, a handle or a remote exception. *)
Variable jvm : string -> list value -> result handle.

Definition apply (w : ExtendedJavaWrapper) : result handle :=
  jvm (java_obj_name w) (java_args w).
End Remote.

(** [str + str]; any other operand raises [TypeError]. *)
Definition str_add (a b : value) : result value :=
  match a, b with
  | VStr x, VStr y => Ok (VStr (x +:+ y))
  | _, _ => Raise TypeError_operand
  end.

Definition arg (bs : list (string * value)) (n : string) : value :=
  match List.find (fun b => String.eqb (fst b) n) bs with
  | Some b => snd b
  | None => VNone
  end.

(** [class _DownloadModel]: [def __init__(self, reader, name, language,
    remote_loc, validator)]. *)
Definition _DownloadModel_sig : list param :=
  [required "reader"; required "name"; required "language";
   required "remote_loc"; required "validator"].

Definition _DownloadModel (args : list value) : result ExtendedJavaWrapper :=
  bs ← bind "_DownloadModel.__init__" _DownloadModel_sig args;
  p ← str_add (VStr "com.johnsnowlabs.nlp.pretrained.") (arg bs "validator");
  c ← str_add p (VStr ".downloadModel");
  match c with
  | VStr cls =>
      Ok (Wrapper cls [arg bs "reader"; arg bs "name"; arg bs "language";
                       arg bs "remote_loc"])
  | _ => Raise TypeError_operand
  end.

(** [class _DownloadPipeline]: [def __init__(self, name, language,
    remote_loc)]. *)
Definition _DownloadPipeline_sig : list param :=
  [required "name"; required "language"; required "remote_loc"].

Definition _DownloadPipeline (args : list value) : result ExtendedJavaWrapper :=
  bs ← bind "_DownloadPipeline.__init__" _DownloadPipeline_sig args;
  Ok (Wrapper
        "com.johnsnowlabs.nlp.pretrained.PythonResourceDownloader.downloadPipeline"
        [arg bs "name"; arg bs "language"; arg bs "remote_loc"]).

(** [class _ShowPublicModels]: [def __init__(self, annotator, lang,
    version)]. *)
Definition _ShowPublicModels_sig : list param :=
  [required "annotator"; required "lang"; required "version"].

Definition _ShowPublicModels (args : list value) : result ExtendedJavaWrapper :=
  bs ← bind "_ShowPublicModels.__init__" _ShowPublicModels_sig args;
  Ok (Wrapper
        "com.johnsnowlabs.nlp.pretrained.PythonResourceDownloader.showPublicModels"
        [arg bs "annotator"; arg bs "lang"; arg bs "version"]).

(** [class _ShowPublicPipelines]: [def __init__(self, lang, version)]. *)
Definition _ShowPublicPipelines_sig : list param :=
  [required "lang"; required "version"].

Definition _ShowPublicPipelines (args : list value) : result ExtendedJavaWrapper :=
  bs ← bind "_ShowPublicPipelines.__init__" _ShowPublicPipelines_sig args;
  Ok (Wrapper
        "com.johnsnowlabs.nlp.pretrained.PythonResourceDownloader.showPublicPipelines"
        [arg bs "lang"; arg bs "version"]).

(** [class _ShowUnCategorizedResources]: [def __init__(self)]. *)
Definition _ShowUnCategorizedResources (args : list value)
  : result ExtendedJavaWrapper :=
  _ ← bind "_ShowUnCategorizedResources.__init__" [] args;
  Ok (Wrapper
        "com.johnsnowlabs.nlp.pretrained.PythonResourceDownloader.showUnCategorizedResources"
        []).

(** [class _ClearCache]: [def __init__(self, name, language, remote_loc)]. *)
Definition _ClearCache_sig : list param :=
  [required "name"; required "language"; required "remote_loc"].

Definition _ClearCache (args : list value) : result ExtendedJavaWrapper :=
  bs ← bind "_ClearCache.__init__" _ClearCache_sig args;
  Ok (Wrapper
        "com.johnsnowlabs.nlp.pretrained.PythonResourceDownloader.clearCache"
        [arg bs "name"; arg bs "language"; arg bs "remote_loc"]).

(** [class _DownloadModelDirectly]: [def __init__(self, name,
    remote_loc="public/models", unzip=True)]. *)
Definition _DownloadModelDirectly_sig : list param :=
  [required "name"; optional "remote_loc" (VStr "public/models");
   optional "unzip" (VBool true)].

Definition _DownloadModelDirectly (args : list value) : result ExtendedJavaWrapper :=
  bs ← bind "_DownloadModelDirectly.__init__" _DownloadModelDirectly_sig args;
  Ok (Wrapper
        "com.johnsnowlabs.nlp.pretrained.PythonResourceDownloader.downloadModelDirectly"
        [arg bs "name"; arg bs "remote_loc"; arg bs "unzip"]).

(** [class _XlnetLoader]: [def __init__(self, path, jspark)]. *)
Definition _XlnetLoader_sig : list param := [required "path"; required "jspark"].

Definition _XlnetLoader (args : list value) : result ExtendedJavaWrapper :=
  bs ← bind "_XlnetLoader.__init__" _XlnetLoader_sig args;
  Ok (Wrapper "com.johnsnowlabs.nlp.embeddings.XlnetEmbeddings.loadSavedModel"
        [arg bs "path"; arg bs "jspark"]).

(** The arguments of [_CoNLLGeneratorExportFromTargetAndPipeline] by
    their exact type, as its [type(x) == ...] tests see them: a
    [PipelineModel], a [DataFrame] with its [_jdf], a session with its
    [_jsparkSession], or any other value. *)
Inductive conll_pipeline : Type :=
| PModel (model : handle)
| PValue (v : value).

Inductive conll_target : Type :=
| CDataFrame (jdf : handle)
| CValue (v : value).

Inductive conll_spark : Type :=
| Session (jsparkSession : handle)
| NoSession (v : value).

Section CoNLL.
(** [PipelineModel._to_java] and [PipelineModel.load]. *)
Variable _to_java : handle -> result handle.
Variable PipelineModel_load : string -> result handle.

Definition convert_pipeline (pipeline : conll_pipeline) : result value :=
  match pipeline with
  | PModel m => VJava <$> _to_java m
  | PValue (VStr path) => m ← PipelineModel_load path; VJava <$> _to_java m
  | PValue v => Ok v
  end.

Definition _jsparkSession (spark : conll_spark) : result value :=
  match spark with
  | Session j => Ok (VJava j)
  | NoSession _ => Raise (AttributeError "_jsparkSession")
  end.

Definition _CoNLLGeneratorExportFromTargetAndPipeline
    (spark : conll_spark) (target : conll_target) (pipeline : conll_pipeline)
    (output_path : value) : result ExtendedJavaWrapper :=
  pipeline ← convert_pipeline pipeline;
  match target with
  | CDataFrame jdf =>
      Ok (Wrapper "com.johnsnowlabs.util.CoNLLGenerator.exportConllFiles"
            [VJava jdf; pipeline; output_path])
  | CValue target =>
      session ← _jsparkSession spark;
      Ok (Wrapper "com.johnsnowlabs.util.CoNLLGenerator.exportConllFiles"
            [session; target; pipeline; output_path])
  end.
End CoNLL.

End Internal.

(** ** sparknlp/pretrained.py *)

Module Pretrained.
Import Internal.

(** What a call leaves behind besides its result: lines printed, the
    progress thread's life cycle, and the calls sent to the remote side. *)
Inductive event : Type :=
| Print (s : string)
| ThreadStart
| StopFlagSet
| ThreadJoin
| Remote (cls : string) (args : list value).

(** *** printProgress *)

(** Effects of [printProgress] on the terminal and the clock. *)
Inductive tty : Type :=
| Write (s : string)
| Flush
| Sleep.

Definition CR : string := String (ascii_of_nat 13) "".
Definition LF : string := String (ascii_of_nat 10) "".
Definition block : string := "█".

(** ['\r[{}{}]'.format(fill * done, c * max(2, dot))] *)
Definition bar (done dot : Z) (c : string) : string :=
  CR +:+ "[" +:+ str_mul block done +:+ str_mul c (Z.max 2 dot) +:+ "]".

(** The [while True] loop.  [stop] is the polled flag: [stop i] is what
    the [i]-th call of [stop()] returns, [polls] counts the calls made so
    far.  The loop has no bound of its own, hence the fuel; the result
    is the output written and the number of iterations run. *)
Fixpoint printProgress_loop (fuel : nat) (stop : nat -> bool)
    (polls : nat) (done dot : Z) (out : list tty) : option (list tty * nat) :=
  match fuel with
  | O => None
  | S fuel' =>
      let out := out ++ [Write (bar done dot "."); Flush; Sleep] in
      let done := done + 1 in
      let dot := dot - 1 in
      if stop polls
      then Some (out ++ [Write (bar done dot block); Flush], S polls)
      else printProgress_loop fuel' stop (S polls) done dot out
  end.

Definition printProgress (fuel : nat) (stop : nat -> bool)
  : option (list tty * nat) :=
  '(out, n) ← printProgress_loop fuel stop 0 1 7 [];
  Some (out ++ [Write LF], n).

(** The output of the first [n] complete print-and-sleep cycles, starting
    from the counters [done] and [dot]. *)
Fixpoint cycles (n : nat) (done dot : Z) : list tty :=
  match n with
  | O => []
  | S n' =>
      [Write (bar done dot "."); Flush; Sleep] ++ cycles n' (done + 1) (dot - 1)
  end.

(** *** ResourceDownloader *)

Section Downloader.
Variable jvm : string -> list value -> result handle.

(** A reader class: its [name] attribute and its constructor, called
    as [reader(classname=None, java_model=j_obj)]. *)
Context {Annotator : Type}.
Record reader_class : Type := Reader {
  reader_name : string;
  reader_new : value -> handle -> result Annotator
}.

Definition remote_apply (w : ExtendedJavaWrapper) : io event handle :=
  ([Remote (java_obj_name w) (java_args w)], apply jvm w).

Definition downloadModel (reader : reader_class) (name language : string)
    (remote_loc : value) : io event Annotator :=
  _ ← emit (Print (name +:+ " download started this may take some time"));
  _ ← emit ThreadStart;
  w ← lift (_DownloadModel
              [VStr (reader_name reader); VStr name; VStr language; remote_loc]);
  j_obj ← remote_apply w;
  _ ← emit StopFlagSet;
  _ ← emit ThreadJoin;
  _ ← emit (Print "Download done");
  lift (reader_new reader VNone j_obj).

(** [JavaModel(j_obj)], the wrapping of a remote handle into a model
    object; it reads the model's uid from the remote side. *)
Context {Model : Type}.
Variable JavaModel : handle -> result Model.

Definition downloadPipeline (name language : string) (remote_loc : value)
  : io event Model :=
  _ ← emit (Print (name +:+ " download started this may take some time"));
  _ ← emit ThreadStart;
  w ← lift (_DownloadPipeline [VStr name; VStr language; remote_loc]);
  j_obj ← remote_apply w;
  jmodel ← lift (JavaModel j_obj);
  _ ← emit StopFlagSet;
  _ ← emit ThreadJoin;
  _ ← emit (Print "Download done");
  mret jmodel.

Definition showPublicModels : io event unit :=
  _ ← emit (Print "test");
  w ← lift (_ShowPublicModels []);
  _ ← remote_apply w;
  mret tt.

Definition showPublicPipelines : io event unit :=
  w ← lift (_ShowPublicPipelines []);
  _ ← remote_apply w;
  mret tt.

Definition showUnCategorizedResources : io event unit :=
  w ← lift (_ShowUnCategorizedResources []);
  _ ← remote_apply w;
  mret tt.
End Downloader.

(** *** PretrainedPipeline *)

(** The argument [target] by its exact type, as [type(target) is ...]
    tests it; [TOther] stands for an object of any other type, named. *)
Inductive target (DataFrame : Type) : Type :=
| TDataFrame (df : DataFrame)
| TList (l : list value)
| TStr (s : string)
| TOther (type_name : string).
Arguments TDataFrame {DataFrame} df.
Arguments TList {DataFrame} l.
Arguments TStr {DataFrame} s.
Arguments TOther {DataFrame} type_name.

(** What a delegated call yields: a value, or an exception raised inside
    the call (by the bridge or the remote side), which propagates
    unchanged. *)
Inductive remote (A : Type) : Type :=
| Returned (a : A)
| Thrown (h : handle).
Arguments Returned {A} a.
Arguments Thrown {A} h.

Definition propagate {A} (r : remote A) : result A :=
  match r with
  | Returned a => Ok a
  | Thrown h => Raise (JavaError h)
  end.

Definition column_needed : string :=
  "annotate() column arg needed when targeting a DataFrame".
Definition bad_target : string :=
  "target must be either a spark DataFrame, a list of strings or a string".

Section Pipeline.
Context {DataFrame Annotated : Type}.
(** [DataFrame.withColumnRenamed], [self.model.transform] and the two
    entry points of [self.light_model]. *)
Variable withColumnRenamed : DataFrame -> value -> string -> remote DataFrame.
Variable model_transform : DataFrame -> remote Annotated.
Variable light_annotate : target DataFrame -> remote Annotated.
Variable light_fullAnnotate : target DataFrame -> remote Annotated.

(** [self.model.transform(target.withColumnRenamed(column, "text"))] *)
Definition transform_renamed (df : DataFrame) (column : value) : result Annotated :=
  renamed ← propagate (withColumnRenamed df column "text");
  propagate (model_transform renamed).

Definition annotate (t : target DataFrame) (column : value) : result Annotated :=
  match t with
  | TDataFrame df =>
      if negb (truthy column)
      then Raise (Exception column_needed)
      else transform_renamed df column
  | TList _ | TStr _ => propagate (light_annotate t)
  | TOther _ => Raise (Exception bad_target)
  end.

Definition fullAnnotate (t : target DataFrame) (column : value) : result Annotated :=
  match t with
  | TDataFrame df =>
      if negb (truthy column)
      then Raise (Exception column_needed)
      else transform_renamed df column
  | TList _ | TStr _ => propagate (light_fullAnnotate t)
  | TOther _ => Raise (Exception bad_target)
  end.

Definition transform (data : DataFrame) : result Annotated :=
  propagate (model_transform data).
End Pipeline.


(** A frame as its list of column names, with the renaming done locally
    and a remote side that answers with the frame it was given. *)
Definition rename_column (df : list string) (column : value) (new : string)
  : remote (list string) :=
  match column with
  | VStr c => Returned ((fun x => if String.eqb x c then new else x) <$> df)
  | _ => Thrown 1%positive
  end.

(** [ResourceDownloader.clearCache]; [remote_loc] defaults to [None]. *)
Definition clearCache (jvm : string -> list value -> result handle)
    (name language : string) (remote_loc : value) : io event unit :=
  w ← lift (_ClearCache [VStr name; VStr language; remote_loc]);
  _ ← remote_apply jvm w;
  mret tt.

Definition is_Remote (e : event) : bool :=
  match e with Remote _ _ => true | _ => false end.

End Pretrained.

(** ** sparknlp/annotator/embeddings/xlnet_embeddings.py *)

Module Xlnet.

(** The [TypeConverters] named by the parameter declarations. *)
Inductive converter : Type := toInt | toBoolean | toListInt.

(** What a converter does with a value: it returns the converted value,
    raises [TypeError], or lets the [OverflowError] of [float(value)]
    through. *)
Inductive converted : Type :=
| Converted (v : value)
| NotConvertible
| Overflow.

(** [TypeConverters._is_numeric]: the exact type is [int] or [float]; a
    [bool] is neither. *)
Definition _is_numeric (v : value) : bool :=
  match v with
  | VInt _ | VFloat _ => true
  | _ => false
  end.

(** [TypeConverters._is_integer]: [_is_numeric(value) and
    float(value).is_integer()]; [None] stands for the [OverflowError] of
    [float(value)]. *)
Definition _is_integer (v : value) : option bool :=
  match v with
  | VInt z => if int_fits_float z then Some true else None
  | VFloat f => Some (float_is_integer f)
  | _ => Some false
  end.

(** [int(v)] on a value that passed [_is_integer]. *)
Definition to_int (v : value) : value :=
  match v with
  | VFloat f => VInt (float_to_int f)
  | _ => v
  end.

(** [all(map(_is_integer, value))], element by element from the left,
    stopping at the first that is no integer. *)
Fixpoint all_integer (l : list value) : option bool :=
  match l with
  | [] => Some true
  | v :: l' =>
      match _is_integer v with
      | None => None
      | Some false => Some false
      | Some true => all_integer l'
      end
  end.

(** [toInt], [toBoolean] and [toListInt]. *)
Definition typeConverter (c : converter) (v : value) : converted :=
  match c with
  | toInt =>
      match _is_integer v with
      | None => Overflow
      | Some true => Converted (to_int v)
      | Some false => NotConvertible
      end
  | toBoolean =>
      match v with
      | VBool b => Converted (VBool b)
      | _ => NotConvertible
      end
  | toListInt =>
      match v with
      | VList l =>
          match all_integer l with
          | None => Overflow
          | Some true => Converted (VList (List.map to_int l))
          | Some false => NotConvertible
          end
      | _ => NotConvertible
      end
  end.

Record Param : Type := mkParam {
  name : string;
  doc : string;
  converter_of : converter
}.

(** Declared in the class body. *)
Definition configProtoBytes : Param :=
  mkParam "configProtoBytes"
    "ConfigProto from tensorflow, serialized into byte array. Get with config_proto.SerializeToString()"
    toListInt.

Definition maxSentenceLength : Param :=
  mkParam "maxSentenceLength" "Max sentence length to process" toInt.

(** Modelled from the spec: [batchSize], [dimension] and [caseSensitive]
    are declared by mixin classes that are not among the sources; the spec
    lists them in the "fixed parameter schema (batch size, dimension, max
    sequence length, case sensitivity, serialized runtime configuration)"
    with "typed setters": two integers and a boolean. *)
Definition batchSize : Param := mkParam "batchSize" "Size of every batch" toInt.
Definition dimension : Param :=
  mkParam "dimension" "Number of embedding dimensions" toInt.
Definition caseSensitive : Param :=
  mkParam "caseSensitive" "whether to ignore case in tokens for embeddings matching"
    toBoolean.

Definition schema : list Param :=
  [batchSize; dimension; maxSentenceLength; caseSensitive; configProtoBytes].

(** [getattr(self, param)] over the schema. *)
Definition getattr (n : string) : result Param :=
  match List.find (fun p => String.eqb (name p) n) schema with
  | Some p => Ok p
  | None => Raise (AttributeError n)
  end.

(** The two dictionaries every [Params] object carries, keyed by
    parameter name. *)
Record Params : Type := mkParams {
  _paramMap : gmap string value;
  _defaultParamMap : gmap string value
}.

Definition convert (p : Param) (v : value) : result value :=
  match v with
  | VNone => Ok VNone
  | _ =>
      match typeConverter (converter_of p) v with
      | Converted v' => Ok v'
      | NotConvertible => Raise (TypeError_convert (name p))
      | Overflow => Raise OverflowError
      end
  end.

(** [Params._setDefault] over its keyword arguments: values other than [None] and remote
    handles go through the parameter's converter. *)
Fixpoint _setDefault (kwargs : list (string * value)) (self : Params)
  : result Params :=
  match kwargs with
  | [] => Ok self
  | (n, v) :: kwargs' =>
      p ← getattr n;
      v' ← match v with VJava _ => Ok v | _ => convert p v end;
      _setDefault kwargs'
        (mkParams (_paramMap self) (<[name p := v']> (_defaultParamMap self)))
  end.

(** [Params._set] over its keyword arguments. *)
Fixpoint _set (kwargs : list (string * value)) (self : Params) : result Params :=
  match kwargs with
  | [] => Ok self
  | (n, v) :: kwargs' =>
      p ← getattr n;
      v' ← convert p v;
      _set kwargs'
        (mkParams (<[name p := v']> (_paramMap self)) (_defaultParamMap self))
  end.

Definition isSet (self : Params) (p : Param) : bool :=
  bool_decide (is_Some (_paramMap self !! name p)).
Definition hasDefault (self : Params) (p : Param) : bool :=
  bool_decide (is_Some (_defaultParamMap self !! name p)).
Definition getDefault (self : Params) (p : Param) : option value :=
  _defaultParamMap self !! name p.

(** [Params.getOrDefault]: the explicit value if there is one, else the
    default; [None] here stands for the [KeyError] of a parameter that has
    neither. *)
Definition getOrDefault (self : Params) (p : Param) : option value :=
  match _paramMap self !! name p with
  | Some v => Some v
  | None => _defaultParamMap self !! name p
  end.

(** Objects live in a store and methods receive a reference, so that
    "returns [self]" can be told from "returns an equal object". *)
Definition ref := positive.
Abbreviation store := (gmap ref Params).

Definition method (A : Type) : Type := store -> result (A * store).

Definition update (self : ref) (f : Params -> result Params) : method ref :=
  fun st =>
    match st !! self with
    | None => Raise (AttributeError "self")
    | Some o => o' ← f o; Ok (self, <[self := o']> st)
    end.

(** [XlnetEmbeddings.__init__], from the state the superclass
    initialisers leave the object in. *)
Definition __init__ (base : Params) : result Params :=
  _setDefault
    [("batchSize", VInt 8); ("dimension", VInt 768);
     ("maxSentenceLength", VInt 128); ("caseSensitive", VBool true)]
    base.

Definition setConfigProtoBytes (self : ref) (b : value) : method ref :=
  update self (_set [("configProtoBytes", b)]).

Definition setMaxSentenceLength (self : ref) (v : value) : method ref :=
  update self (_set [("maxSentenceLength", v)]).

(** The values [toInt] takes for integers: an [int] that [float]
    accepts, or a [float] with an integral value; and the values it
    refuses with [TypeError]. *)
Definition integral (v : value) : Prop :=
  match v with
  | VInt z => Z.abs z < 2 ^ 1024 - 2 ^ 970
  | VFloat f => float_is_integer f = true
  | _ => False
  end.

Definition not_integral (v : value) : Prop :=
  match v with
  | VInt _ => False
  | VFloat f => float_is_integer f = false
  | _ => True
  end.

(** An object as the superclass initialisers may leave it: nothing set,
    one default of another parameter. *)
Definition fresh_model : Params :=
  mkParams ∅ {["lazyAnnotator" := VBool false]}.

Section Companion.
(** The remote side, and the state in which the superclass initialisers
    leave an object built as [XlnetEmbeddings(classname=..., java_model=...)]. *)
Variable jvm : string -> list value -> result handle.
Variable super_init : value -> handle -> Params.

(** The class as a reader: its [name] and its constructor. *)
Definition XlnetEmbeddings : Pretrained.reader_class :=
  Pretrained.Reader "XlnetEmbeddings"
    (fun classname java_model => __init__ (super_init classname java_model)).

(** [XlnetEmbeddings.loadSavedModel(folder, spark_session)], with
    [spark_session._jsparkSession] already read. *)
Definition loadSavedModel (folder : string) (jsparkSession : handle)
  : result Params :=
  w ← Internal._XlnetLoader [VStr folder; VJava jsparkSession];
  jModel ← Internal.apply jvm w;
  __init__
    (super_init (VStr "com.johnsnowlabs.nlp.embeddings.XlnetEmbeddings") jModel).

(** [XlnetEmbeddings.pretrained(name="xlnet_base_cased", lang="en",
    remote_loc=None)]. *)
Definition pretrained (name lang : option string) (remote_loc : option value)
  : io Pretrained.event Params :=
  Pretrained.downloadModel jvm XlnetEmbeddings
    (default "xlnet_base_cased" name) (default "en" lang)
    (default VNone remote_loc).
End Companion.

End Xlnet.

(** ** sparknlp/spellchecker/rnn_lm.py *)

Module RnnLm.

(** *** The learning-rate schedule of [RNNLM.__init__] *)

(** A learning rate as the caller passes it: a Python [int] or a Python
    [float]. *)
Inductive pynum (P : Type) : Type :=
| PyInt (z : Z)
| PyFloat (x : P).
Arguments PyInt {P} z.
Arguments PyFloat {P} x.

(** Building a piece of the graph gives a tensor, or is refused because
    the types of the operands do not agree. *)
Inductive graph (A : Type) : Type :=
| Built (a : A)
| DtypeError.
Arguments Built {A} a.
Arguments DtypeError {A}.

Section Schedule.
(** Python floats [P], the [float32] numbers [R] of the graph, the
    conversion of the first to the second, the Python float a decimal
    literal denotes, and the operations the schedule applies:
    [tf.multiply], [tf.pow] at an integral exponent, [tf.less]. *)
Context {P R : Type}.
Variable to_float32 : P -> R.
Variable literal : Q -> P.
Variable mul : R -> R -> R.
Variable pow : R -> Z -> R.
Variable less : R -> R -> bool.

(** [tf.train.exponential_decay(..., staircase=True)]: the type of the
    rate decides the type of the computation.  A float rate gives the rate
    times [decay_rate] to the power [floor(global_step / decay_steps)]; with
    an int rate the decay rate is cast to an integer and its power at the
    floating quotient is refused. *)
Definition exponential_decay (learning_rate : pynum P) (global_step decay_steps : Z)
    (decay_rate : P) : graph R :=
  match learning_rate with
  | PyInt _ => DtypeError
  | PyFloat learning_rate =>
      Built (mul (to_float32 learning_rate)
               (pow (to_float32 decay_rate) (global_step / decay_steps)))
  end.

(** [self.learning_rate] after the [tf.cond]: both branches have to be of
    one type, so [tf.constant(final_learning_rate)] on an int is refused
    beside the float rate. *)
Definition learning_rate (initial_learning_rate final_learning_rate : pynum P)
    (global_step : Z) : graph R :=
  match exponential_decay initial_learning_rate global_step 150
          (literal (96 # 100)) with
  | DtypeError => DtypeError
  | Built lr =>
      match final_learning_rate with
      | PyInt _ => DtypeError
      | PyFloat final_learning_rate =>
          Built (if less lr (to_float32 final_learning_rate)
                 then to_float32 final_learning_rate
                 else lr)
      end
  end.
End Schedule.

(** Exact rational arithmetic as one instance of the operations. *)
Definition Qless (a b : Q) : bool :=
  match Qcompare a b with Lt => true | _ => false end.

Definition Qlearning_rate : pynum Q -> pynum Q -> Z -> graph Q :=
  learning_rate (fun q => q) (fun q => q) Qmult Qpower Qless.

(** *** parse *)

Section Parse.
(** [tf.string_split([line]).values] and [tf.string_to_number(_,
    out_type=tf.int32)] on one token, [None] when the token is not a
    number of that type. *)
Variable string_split : string -> list string.
Variable string_to_number : string -> option Z.

(** [tf.string_to_number] on a vector: fails as a whole when one
    element does not convert. *)
Fixpoint to_numbers (ts : list string) : result (list Z) :=
  match ts with
  | [] => Ok []
  | t :: ts' =>
      match string_to_number t with
      | None => Raise InvalidArgumentError
      | Some z => zs ← to_numbers ts'; Ok (z :: zs)
      end
  end.

Definition parse (line : string) : result (list Z * list Z) :=
  let line_split := string_split line in
  input_seq ← to_numbers (slice_to_last line_split);
  output_seq ← to_numbers (slice_from_1 line_split);
  Ok (input_seq, output_seq).
End Parse.

(** A reference reading of the two framework operations: split at
    spaces, dropping empty tokens, and signed decimal numerals within the
    32-bit range. *)
Fixpoint split_at (d : ascii) (s cur : string) : list string :=
  match s with
  | EmptyString => if String.eqb cur "" then [] else [cur]
  | String c s' =>
      if Ascii.eqb c d
      then (if String.eqb cur "" then split_at d s' ""
            else cur :: split_at d s' "")
      else split_at d s' (cur +:+ String c "")
  end.

Definition tf_string_split (line : string) : list string :=
  split_at " "%char line "".

Definition digit (c : ascii) : option Z :=
  let n := Z.of_nat (nat_of_ascii c) in
  if (48 <=? n) && (n <=? 57) then Some (n - 48) else None.

Definition in_int32 (z : Z) : bool := (- 2 ^ 31 <=? z) && (z <? 2 ^ 31).

(** Space, tab, line feed, vertical tab, form feed, carriage return. *)
Definition is_space (c : ascii) : bool :=
  let n := nat_of_ascii c in
  Nat.eqb n 32 || (Nat.leb 9 n && Nat.leb n 13).

Fixpoint skip_spaces (s : string) : string :=
  match s with
  | EmptyString => EmptyString
  | String c s' => if is_space c then skip_spaces s' else s
  end.

(** The number the leading digits of [s] write, after [acc], and what
    follows them. *)
Fixpoint read_digits (s : string) (acc : Z) : Z * string :=
  match s with
  | EmptyString => (acc, s)
  | String c s' =>
      match digit c with
      | Some d => read_digits s' (10 * acc + d)
      | None => (acc, s)
      end
  end.

(** White space, an optional minus sign, one digit or more, white space,
    and nothing else; the number has to fit 32 bits. *)
Definition tf_string_to_number (t : string) : option Z :=
  let s := skip_spaces t in
  let '(negative, s) :=
    match s with
    | String "-"%char s' => (true, s')
    | _ => (false, s)
    end in
  match s with
  | EmptyString => None
  | String c _ =>
      match digit c with
      | None => None
      | Some _ =>
          let '(n, rest) := read_digits s 0 in
          match skip_spaces rest with
          | EmptyString =>
              let z := if negative then - n else n in
              if in_int32 z then Some z else None
          | String _ _ => None
          end
      end
  end.

(** The split at any run of white space, as Python's [str.split()] does
    it, for comparison with the split at spaces the framework does. *)
Fixpoint split_when (p : ascii -> bool) (s cur : string) : list string :=
  match s with
  | EmptyString => if String.eqb cur "" then [] else [cur]
  | String c s' =>
      if p c
      then (if String.eqb cur "" then split_when p s' ""
            else cur :: split_when p s' "")
      else split_when p s' (cur +:+ String c "")
  end.

Definition whitespace_split (line : string) : list string :=
  split_when is_space line "".

(** The line [1<TAB>2]. *)
Definition tab_line : string := String "1" (String "009" "2").

(** *** batch_train *)

(** What [batch_train] does to the session, the checkpoint saver and the
    terminal. *)
Inductive step (F : Type) : Type :=
| TrainInit
| PrintEpoch (epoch : Z)
| TrainBatch
| GcCollect
| PrintStep (global_step : Z) (lr : F)
| PrintTrainPPL (ppl : F)
| ValidInit
| ValidBatch
| PrintValidPPL (ppl : F)
| SaveBest.
Arguments TrainInit {F}.
Arguments PrintEpoch {F} epoch.
Arguments TrainBatch {F}.
Arguments GcCollect {F}.
Arguments PrintStep {F} global_step lr.
Arguments PrintTrainPPL {F} ppl.
Arguments ValidInit {F}.
Arguments ValidBatch {F}.
Arguments PrintValidPPL {F} ppl.
Arguments SaveBest {F}.

(** What one [sess.run] fetches in the training loop and in the
    validation loop. *)
Record train_fetch (F : Type) : Type := TrainFetch {
  t_loss : list F;
  t_valid_words : Z;
  t_global_step : Z;
  t_learning_rate : F
}.
Arguments TrainFetch {F}.
Arguments t_loss {F}.
Arguments t_valid_words {F}.
Arguments t_global_step {F}.
Arguments t_learning_rate {F}.

Record valid_fetch (F : Type) : Type := ValidFetch {
  v_loss : list F;
  v_valid_words : Z
}.
Arguments ValidFetch {F}.
Arguments v_loss {F}.
Arguments v_valid_words {F}.

(** The local variables of [batch_train] that outlive an iteration. *)
Record locals (F : Type) : Type := Locals {
  best_score : F;
  patience : Z;
  epoch : Z
}.
Arguments Locals {F}.
Arguments best_score {F}.
Arguments patience {F}.
Arguments epoch {F}.

(** [a % b] on the fetched step counter: zero when [b] is zero. *)
Definition np_mod (a b : Z) : Z := if b =? 0 then 0 else a mod b.

Section Train.
(** Floating-point numbers and the operations used on them. *)
Context {F : Type}.
Variable zero inf : F.
Variable add : F -> F -> F.
Variable np_sum : list F -> F.
Variable div : F -> Z -> F.
Variable math_exp : F -> result F.
Variable lt : F -> F -> bool.

(** The session: what the [i]-th pass over the training file and over
    the validation file fetches, batch by batch, before the iterator
    raises [OutOfRangeError].  A file holds finitely many lines. *)
Variable train_data : nat -> list (train_fetch F).
Variable valid_data : nat -> list (valid_fetch F).

Variable num_epochs : Z.
Variable check_point_step : Z.

(** The inner training loop, from the current accumulators. *)
Fixpoint train_pass (batches : list (train_fetch F)) (train_loss : F)
    (train_valid_words : Z) : io (step F) unit :=
  match batches with
  | [] => mret tt
  | b :: batches' =>
      _ ← emit TrainBatch;
      let train_loss := add train_loss (np_sum (t_loss b)) in
      let train_valid_words := train_valid_words + t_valid_words b in
      if np_mod (t_global_step b) check_point_step =? 0
      then
        _ ← emit GcCollect;
        let train_loss := div train_loss train_valid_words in
        train_ppl ← lift (math_exp train_loss);
        _ ← emit (PrintStep (t_global_step b) (t_learning_rate b));
        _ ← emit (PrintTrainPPL train_ppl);
        train_pass batches' zero 0
      else train_pass batches' train_loss train_valid_words
  end.

(** The inner validation loop up to the end of the data; the third
    component tells whether a batch was added, that is whether the
    accumulators are still the literals [0.0] and [0]. *)
Fixpoint valid_pass (batches : list (valid_fetch F)) (dev_loss : F)
    (dev_valid_words : Z) (fetched : bool) : io (step F) (F * Z * bool) :=
  match batches with
  | [] => mret (dev_loss, dev_valid_words, fetched)
  | b :: batches' =>
      _ ← emit ValidBatch;
      valid_pass batches' (add dev_loss (np_sum (v_loss b)))
        (dev_valid_words + v_valid_words b) true
  end.

(** One iteration of the outer [while]. *)
Definition iteration (pass : nat) (st : locals F) : io (step F) (locals F) :=
  _ ← emit TrainInit;
  _ ← emit (PrintEpoch (epoch st));
  _ ← train_pass (train_data pass) zero 0;
  _ ← emit ValidInit;
  '(dev_loss, dev_valid_words, fetched) ← valid_pass (valid_data pass) zero 0 false;
  dev_loss ← lift (if (fetched : bool) then Ok (div dev_loss dev_valid_words)
                   else Raise ZeroDivisionError);
  dev_ppl ← lift (math_exp dev_loss);
  _ ← emit (PrintValidPPL dev_ppl);
  st ← (if lt dev_ppl (best_score st)
        then _ ← emit SaveBest; mret (Locals dev_ppl 5 (epoch st))
        else mret (Locals (best_score st) (patience st - 1) (epoch st)));
  mret (Locals (best_score st) (patience st) num_epochs).

(** The outer [while epoch < self.num_epochs]; [pass] counts the
    iterations begun, and the fuel bounds them. *)
Fixpoint epochs (fuel : nat) (pass : nat) (st : locals F)
  : option (io (step F) (locals F)) :=
  if epoch st <? num_epochs
  then
    match fuel with
    | O => None
    | S fuel' =>
        match iteration pass st with
        | (t, Ok st') =>
            '(t', r) ← epochs fuel' (S pass) st';
            Some (t ++ t', r)
        | (t, Raise e) => Some (t, Raise e)
        end
    end
  else Some (mret st).

Definition batch_train (fuel : nat) : option (io (step F) (locals F)) :=
  epochs fuel 0 (Locals inf 5 0).
End Train.

(** Number of iterations of the outer loop begun, of training passes
    completed and of validation passes completed, read off the log. *)
Definition is_TrainInit {F} (s : step F) : bool :=
  match s with TrainInit => true | _ => false end.
Definition is_ValidInit {F} (s : step F) : bool :=
  match s with ValidInit => true | _ => false end.
Definition is_PrintValidPPL {F} (s : step F) : bool :=
  match s with PrintValidPPL _ => true | _ => false end.

Definition begun {F} (t : list (step F)) : nat :=
  length (List.filter is_TrainInit t).
Definition trained {F} (t : list (step F)) : nat :=
  length (List.filter is_ValidInit t).
Definition validated {F} (t : list (step F)) : nat :=
  length (List.filter is_PrintValidPPL t).

(** A small session over integers standing in for floats: two training
    batches and one validation batch in every pass. *)
Definition toy_train (_ : nat) : list (train_fetch Z) :=
  [TrainFetch [3; 4] 2 1 1; TrainFetch [5] 1 2 1].
Definition toy_valid (_ : nat) : list (valid_fetch Z) :=
  [ValidFetch [6; 2] 2].
Definition toy_sum (l : list Z) : Z := fold_right Z.add 0 l.

Definition toy_batch_train (num_epochs : Z) (fuel : nat)
  : option (io (step Z) (locals Z)) :=
  batch_train 0 1000 Z.add toy_sum Z.div Ok Z.ltb toy_train toy_valid
    num_epochs 2 fuel.

(** *** parse_row *)

(** [parse_row(row)]: [row[:-1], row[1:]]. *)
Definition parse_row {A} (row : list A) : list A * list A :=
  (slice_to_last row, slice_from_1 row).

(** *** Sequence lengths in [RNNLM.__init__] *)

(** [tf.sign] on a batch of rows, [tf.reduce_sum] over everything and
    over axis 1. *)
Definition tf_sign (batch : list (list Z)) : list (list Z) :=
  List.map (List.map Z.sgn) batch.
Definition sum_list (l : list Z) : Z := fold_right Z.add 0 l.
Definition reduce_sum (batch : list (list Z)) : Z :=
  sum_list (List.map sum_list batch).
Definition reduce_sum_1 (batch : list (list Z)) : list Z :=
  List.map sum_list batch.

Definition non_zero_weights (input_batch : list (list Z)) : list (list Z) :=
  tf_sign input_batch.
Definition valid_words (input_batch : list (list Z)) : Z :=
  reduce_sum (non_zero_weights input_batch).

(** [get_length(non_zero_place)]; the cast to [tf.int32] leaves the
    integer sums as they are. *)
Definition get_length (non_zero_place : list (list Z)) : list Z :=
  let real_length := reduce_sum_1 non_zero_place in
  real_length.
Definition batch_length (input_batch : list (list Z)) : list Z :=
  get_length (non_zero_weights input_batch).

(** [padded_batch(..., padded_shapes=([None], [None]))] on the rows of
    one batch: every row is filled with zeros up to the longest. *)
Definition longest (rows : list (list Z)) : nat :=
  fold_right Nat.max 0%nat (List.map (@length Z) rows).
Definition pad_to (m : nat) (row : list Z) : list Z :=
  row ++ repeat 0 (m - length row)%nat.
Definition padded_batch (rows : list (list Z)) : list (list Z) :=
  List.map (pad_to (longest rows)) rows.

(** *** predict *)

Inductive test_step (F : Type) : Type :=
| TestInit
| TestBatch
| PrintTestPPL (raw_line : string) (ppl : F)
| PrintGlobalPPL (ppl : F).
Arguments TestInit {F}.
Arguments TestBatch {F}.
Arguments PrintTestPPL {F} raw_line ppl.
Arguments PrintGlobalPPL {F} ppl.

(** How [predict] ends: it returns, the test iterator runs out (nothing
    in [predict] catches that), or a Python exception is raised. *)
Inductive ending (A : Type) : Type :=
| Finished (a : A)
| OutOfRange
| Failed (e : exn).
Arguments Finished {A} a.
Arguments OutOfRange {A}.
Arguments Failed {A} e.

Section Predict.
Context {F : Type}.
Variable zero : F.
Variable add : F -> F -> F.
Variable np_sum : list F -> F.
Variable div : F -> Z -> F.
Variable math_exp : F -> result F.
(** [str.strip] *)
Variable strip : string -> string.

(** The [for raw_line in fp.readlines()] loop: [test_data] is what the
    test iterator still holds, one fetch per line of the input file;
    [fetched] tells whether the accumulators are still the literals
    [0.0] and [0]. *)
Fixpoint predict_lines (verbose : bool) (raw_lines : list string)
    (test_data : list (valid_fetch F)) (global_dev_loss : F)
    (global_dev_valid_words : Z) (fetched : bool)
  : list (test_step F) * ending (F * Z * bool) :=
  match raw_lines with
  | [] => ([], Finished (global_dev_loss, global_dev_valid_words, fetched))
  | raw_line :: raw_lines' =>
      match test_data with
      | [] => ([], OutOfRange)
      | b :: test_data' =>
          let dev_loss := np_sum (v_loss b) in
          let dev_valid_words := v_valid_words b in
          let global_dev_loss := add global_dev_loss dev_loss in
          let global_dev_valid_words := global_dev_valid_words + dev_valid_words in
          if verbose
          then
            match math_exp (div dev_loss dev_valid_words) with
            | Raise e => ([TestBatch], Failed e)
            | Ok dev_ppl =>
                let '(t, r) := predict_lines verbose raw_lines' test_data'
                                 global_dev_loss global_dev_valid_words true in
                (TestBatch :: PrintTestPPL (strip raw_line) dev_ppl :: t, r)
            end
          else
            let '(t, r) := predict_lines verbose raw_lines' test_data'
                             global_dev_loss global_dev_valid_words true in
            (TestBatch :: t, r)
      end
  end.

(** [predict(sess, input_file, raw_file, verbose)], on the lines of the
    raw file and the fetches the input file gives. *)
Definition predict (test_data : list (valid_fetch F)) (raw_lines : list string)
    (verbose : bool) : list (test_step F) * ending unit :=
  match predict_lines verbose raw_lines test_data zero 0 false with
  | (t, OutOfRange) => (TestInit :: t, OutOfRange)
  | (t, Failed e) => (TestInit :: t, Failed e)
  | (t, Finished (global_dev_loss, global_dev_valid_words, fetched)) =>
      if fetched
      then
        match math_exp (div global_dev_loss global_dev_valid_words) with
        | Raise e => (TestInit :: t, Failed e)
        | Ok global_dev_ppl =>
            (TestInit :: t ++ [PrintGlobalPPL global_dev_ppl], Finished tt)
        end
      else (TestInit :: t, Failed ZeroDivisionError)
  end.
End Predict.

(** Counting events of one kind in a log. *)
Definition count {E} (p : E -> bool) (t : list E) : nat :=
  length (List.filter p t).

Definition is_TrainBatch {F} (s : step F) : bool :=
  match s with TrainBatch => true | _ => false end.
Definition is_PrintTrainPPL {F} (s : step F) : bool :=
  match s with PrintTrainPPL _ => true | _ => false end.
Definition is_SaveBest {F} (s : step F) : bool :=
  match s with SaveBest => true | _ => false end.
Definition is_TestBatch {F} (s : test_step F) : bool :=
  match s with TestBatch => true | _ => false end.
Definition is_PrintGlobalPPL {F} (s : test_step F) : bool :=
  match s with PrintGlobalPPL _ => true | _ => false end.

(** The batches of a training pass at which a checkpoint report is
    due. *)
Definition due {F} (check_point_step : Z) (b : train_fetch F) : bool :=
  np_mod (t_global_step b) check_point_step =? 0.

End RnnLm.

(** * Properties *)

Import Internal Pretrained.

(** ** Bridge wrappers and the resource downloader *)

(** Binding succeeds exactly when enough arguments are given and none is
    left over; these two lemmas read the outcome off the arity. *)
Lemma bind_from_exact callee total given sig (args : list value) :
  length args = length sig ->
  bind_from callee total given sig args
  = Ok (zip (p_name <$> sig) args).
Proof.
  revert args. induction sig as [|p sig IH]; intros [|a args] Hlen;
    simpl in *; try discriminate; [reflexivity|].
  rewrite IH by congruence. reflexivity.
Qed.

Lemma bind_all_required_short callee total given sig (args : list value) :
  (length args < length sig)%nat ->
  Forall (fun p => p_default p = None) sig ->
  exists ms, ms <> [] /\
    bind_from callee total given sig args = Raise (TypeError_missing callee ms).
Proof.
  revert args. induction sig as [|p sig IH]; intros args Hlen Hreq.
  - simpl in Hlen. lia.
  - destruct args as [|a args].
    + inversion Hreq as [|? ? Hp Hrest]; subst.
      cbn [bind_from missing]. rewrite Hp.
      exists (p_name p :: missing sig). split; [discriminate | reflexivity].
    + inversion Hreq as [|? ? Hp Hrest]; subst.
      destruct (IH args) as (ms & Hne & Hms); [simpl in Hlen; lia | assumption |].
      exists ms. split; [assumption|]. cbn [bind_from]. rewrite Hms. reflexivity.
Qed.

(** The sibling entry point [downloadPipeline] passes as many arguments
    as its wrapper takes and reaches the remote side. *)
Lemma downloadPipeline_delegates {Model : Type} jvm (JavaModel : handle -> result Model)
    name language remote_loc :
  downloadPipeline jvm JavaModel name language remote_loc
  = ([Print (name +:+ " download started this may take some time");
      ThreadStart;
      Remote "com.johnsnowlabs.nlp.pretrained.PythonResourceDownloader.downloadPipeline"
        [VStr name; VStr language; remote_loc]]
     ++ match (j_obj ← jvm "com.johnsnowlabs.nlp.pretrained.PythonResourceDownloader.downloadPipeline"
                          [VStr name; VStr language; remote_loc];
               JavaModel j_obj) with
        | Ok _ => [StopFlagSet; ThreadJoin; Print "Download done"]
        | Raise _ => []
        end,
     j_obj ← jvm "com.johnsnowlabs.nlp.pretrained.PythonResourceDownloader.downloadPipeline"
               [VStr name; VStr language; remote_loc];
     JavaModel j_obj).
Proof.
  unfold downloadPipeline, remote_apply, apply. cbn.
  destruct (jvm _ _) as [j_obj|e]; cbn; [|reflexivity].
  destruct (JavaModel j_obj); reflexivity.
Qed.

(** The sibling [showUnCategorizedResources] calls a wrapper that takes
    no argument and reaches the remote side. *)
Lemma showUnCategorizedResources_delegates jvm :
  showUnCategorizedResources jvm
  = ([Remote "com.johnsnowlabs.nlp.pretrained.PythonResourceDownloader.showUnCategorizedResources" []],
     _ ← jvm "com.johnsnowlabs.nlp.pretrained.PythonResourceDownloader.showUnCategorizedResources" [];
     Ok tt).
Proof.
  unfold showUnCategorizedResources, remote_apply, apply. cbn.
  destruct (jvm _ _); reflexivity.
Qed.

(** C1. [ResourceDownloader.downloadModel] does not reach the remote
    side: for every reader class, name, language and remote location, the
    call [_DownloadModel(reader.name, name, language, remote_loc)] passes
    four arguments to a constructor with five required parameters, so it
    raises [TypeError] for the missing [validator] after the start line
    was printed and the progress thread started; the stop flag is never
    set and no reader object is built. *)
Theorem downloadModel_missing_validator
    {Annotator : Type} (jvm : string -> list value -> result handle)
    (reader : @reader_class Annotator) (name language : string)
    (remote_loc : value) :
  downloadModel jvm reader name language remote_loc
  = ([Print (name +:+ " download started this may take some time"); ThreadStart],
     Raise (TypeError_missing "_DownloadModel.__init__" ["validator"])).
Proof. reflexivity. Qed.

(** C4. [ResourceDownloader.showPublicModels] does not reach the remote
    side: it prints a line and then calls [_ShowPublicModels()] without
    arguments, whose constructor requires [annotator], [lang] and
    [version], so every invocation raises [TypeError] locally. *)
Theorem showPublicModels_missing_arguments
    (jvm : string -> list value -> result handle) :
  showPublicModels jvm
  = ([Print "test"],
     Raise (TypeError_missing "_ShowPublicModels.__init__"
              ["annotator"; "lang"; "version"])).
Proof. reflexivity. Qed.

(** ** PretrainedPipeline *)

Section PipelineFacts.
Context {DataFrame Annotated : Type}.
Variable withColumnRenamed : DataFrame -> value -> string -> remote DataFrame.
Variable model_transform : DataFrame -> remote Annotated.
Variable light_annotate light_fullAnnotate : target DataFrame -> remote Annotated.

Local Abbreviation annotate :=
  (annotate withColumnRenamed model_transform light_annotate).
Local Abbreviation fullAnnotate :=
  (fullAnnotate withColumnRenamed model_transform light_fullAnnotate).
Local Abbreviation transform_renamed :=
  (transform_renamed withColumnRenamed model_transform).

(** A delegated call never ends in a Python [Exception] of the
    pipeline's own. *)
Lemma propagate_not_Exception {A} (r : remote A) msg :
  propagate r <> Raise (Exception msg).
Proof. destruct r; discriminate. Qed.

Lemma transform_renamed_not_Exception df column msg :
  transform_renamed df column <> Raise (Exception msg).
Proof.
  unfold Pretrained.transform_renamed.
  destruct (withColumnRenamed df column "text") as [renamed|h]; cbn.
  - apply propagate_not_Exception.
  - discriminate.
Qed.

Lemma annotate_DataFrame_falsy df column :
  truthy column = false ->
  annotate (TDataFrame df) column = Raise (Exception column_needed).
Proof. intros H. cbn. rewrite H. reflexivity. Qed.

Lemma annotate_DataFrame_truthy df column :
  truthy column = true ->
  annotate (TDataFrame df) column = transform_renamed df column.
Proof. intros H. cbn. rewrite H. reflexivity. Qed.

Lemma fullAnnotate_DataFrame_truthy df column :
  truthy column = true ->
  fullAnnotate (TDataFrame df) column = transform_renamed df column.
Proof. intros H. cbn. rewrite H. reflexivity. Qed.
End PipelineFacts.





(** An empty column name counts as missing, and a tuple is no supported
    target. *)
Example annotate_empty_column :
  annotate rename_column Returned (fun _ => Thrown 1%positive)
    (TDataFrame ["id"; "body"]) (VStr "")
  = Raise (Exception column_needed).
Proof. reflexivity. Qed.

Example annotate_tuple :
  annotate rename_column Returned (fun _ => Thrown 1%positive)
    (TOther "tuple") VNone
  = Raise (Exception bad_target).
Proof. reflexivity. Qed.

(** C8. On a DataFrame target with a non-empty column name [annotate]
    and [fullAnnotate] compute the same result: both return
    [model.transform] of the frame with that column renamed to ["text"]. *)
Theorem annotate_fullAnnotate_DataFrame
    {DataFrame Annotated : Type}
    (withColumnRenamed : DataFrame -> value -> string -> remote DataFrame)
    (model_transform : DataFrame -> remote Annotated)
    (light_annotate light_fullAnnotate : target DataFrame -> remote Annotated)
    (df : DataFrame) (column : string) :
  column <> "" ->
  annotate withColumnRenamed model_transform light_annotate
    (TDataFrame df) (VStr column)
  = fullAnnotate withColumnRenamed model_transform light_fullAnnotate
      (TDataFrame df) (VStr column)
  /\ annotate withColumnRenamed model_transform light_annotate
       (TDataFrame df) (VStr column)
     = (renamed ← propagate (withColumnRenamed df (VStr column) "text");
        propagate (model_transform renamed)).
Proof.
  intros Hne.
  assert (Ht : truthy (VStr column) = true).
  { cbn. destruct (String.eqb_spec column ""); [contradiction | reflexivity]. }
  rewrite (annotate_DataFrame_truthy _ _ _ _ _ Ht).
  rewrite (fullAnnotate_DataFrame_truthy _ _ _ _ _ Ht).
  split; reflexivity.
Qed.

Lemma annotate_fullAnnotate_DataFrame_witness :
  annotate rename_column Returned (fun _ => Thrown 1%positive)
    (TDataFrame ["id"; "body"]) (VStr "body")
  = fullAnnotate rename_column Returned (fun _ => Thrown 2%positive)
      (TDataFrame ["id"; "body"]) (VStr "body")
  /\ annotate rename_column Returned (fun _ => Thrown 1%positive)
       (TDataFrame ["id"; "body"]) (VStr "body")
     = Ok ["id"; "text"].
Proof.
  apply (annotate_fullAnnotate_DataFrame rename_column Returned
           (fun _ => Thrown 1%positive) (fun _ => Thrown 2%positive)
           ["id"; "body"] "body").
  discriminate.
Defined.

(** ** printProgress *)

(** Below a true value of the flag there is a first one. *)
Lemma first_poll (stop : nat -> bool) (n : nat) :
  stop n = true ->
  exists k, (k <= n)%nat /\ stop k = true /\
            forall j, (j < k)%nat -> stop j = false.
Proof.
  induction n as [n IH] using lt_wf_ind. intros Hn.
  destruct (List.existsb stop (seq 0 n)) eqn:Hex.
  - apply List.existsb_exists in Hex as (m & Hm & Hstop).
    apply List.in_seq in Hm.
    destruct (IH m) as (k & Hk & Hks & Hfirst); [lia | assumption |].
    exists k. repeat split; [lia | assumption | assumption].
  - exists n. repeat split; [lia | assumption |].
    intros j Hj. destruct (stop j) eqn:Hsj; [|reflexivity].
    assert (List.existsb stop (seq 0 n) = true) as Habs; [|congruence].
    apply List.existsb_exists. exists j. split; [|assumption].
    apply List.in_seq. lia.
Qed.

(** The loop, started at poll [polls], runs through the [k] cycles in
    which the flag is still down and through the one in which it is
    found up, then writes the filled bar and stops. *)
Lemma printProgress_loop_runs (stop : nat -> bool) (k : nat) :
  forall fuel polls done dot out,
    (forall j, (j < k)%nat -> stop (polls + j)%nat = false) ->
    stop (polls + k)%nat = true ->
    (k < fuel)%nat ->
    printProgress_loop fuel stop polls done dot out
    = Some (out ++ cycles (S k) done dot
                ++ [Write (bar (done + Z.of_nat k + 1) (dot - Z.of_nat k - 1) block);
                    Flush],
            S (polls + k)).
Proof.
  induction k as [|k IH]; intros fuel polls done dot out Hdown Hup Hfuel.
  - destruct fuel as [|fuel]; [lia|].
    cbn [printProgress_loop cycles]. rewrite Nat.add_0_r in Hup. rewrite Hup.
    rewrite Nat.add_0_r, Z.add_0_r, Z.sub_0_r, app_nil_r.
    rewrite <- app_assoc. reflexivity.
  - destruct fuel as [|fuel]; [lia|].
    cbn [printProgress_loop].
    assert (stop polls = false) as ->.
    { specialize (Hdown O). rewrite Nat.add_0_r in Hdown. apply Hdown. lia. }
    rewrite (IH fuel (S polls) (done + 1) (dot - 1)).
    + f_equal. f_equal; [|lia].
      change (cycles (S (S k)) done dot)
        with ([Write (bar done dot "."); Flush; Sleep]
                ++ cycles (S k) (done + 1) (dot - 1)).
      rewrite <- !app_assoc.
      replace (done + 1 + Z.of_nat k + 1) with (done + Z.of_nat (S k) + 1) by lia.
      replace (dot - 1 - Z.of_nat k - 1) with (dot - Z.of_nat (S k) - 1) by lia.
      reflexivity.
    + intros j Hj. replace (S polls + j)%nat with (polls + S j)%nat by lia.
      apply Hdown. lia.
    + replace (S polls + k)%nat with (polls + S k)%nat by lia. assumption.
    + lia.
Qed.

Lemma printProgress_runs_cycles (stop : nat -> bool) (k fuel : nat) :
  stop k = true -> (forall j, (j < k)%nat -> stop j = false) -> (k < fuel)%nat ->
  printProgress fuel stop
  = Some (cycles (S k) 1 7
            ++ [Write (bar (Z.of_nat k + 2) (6 - Z.of_nat k) block); Flush;
                Write LF],
          S k).
Proof.
  intros Hks Hfirst Hfuel. unfold printProgress.
  rewrite (printProgress_loop_runs stop k fuel 0 1 7 []); [| auto | auto | auto].
  cbn [mbind option_bind app]. rewrite <- app_assoc. cbn [app].
  replace (1 + Z.of_nat k + 1) with (Z.of_nat k + 2) by lia.
  replace (7 - Z.of_nat k - 1) with (6 - Z.of_nat k) by lia.
  reflexivity.
Qed.

(** The strings written, character by character. *)
Lemma append_empty (s : string) : s +:+ "" = s.
Proof.
  induction s as [|c s IH]; [reflexivity|].
  change (String c s +:+ "") with (String c (s +:+ "")). rewrite IH. reflexivity.
Qed.

Lemma str_mul_concat (s : string) (n : Z) :
  str_mul s n = String.concat "" (repeat s (Z.to_nat n)).
Proof.
  unfold str_mul. induction (Z.to_nat n) as [|m IH]; [reflexivity|].
  change (str_repeat s (S m)) with (s +:+ str_repeat s m). rewrite IH.
  destruct m as [|m]; [exact (append_empty s) | reflexivity].
Qed.

Lemma bar_characters (done dot : Z) (c : string) :
  bar done dot c
  = String "013"
      ("[" +:+ String.concat "" (repeat block (Z.to_nat done))
           +:+ String.concat "" (repeat c (Z.to_nat (Z.max 2 dot))) +:+ "]").
Proof. unfold bar. rewrite !str_mul_concat. reflexivity. Qed.

Lemma flat_map_seq_S {A} (f : nat -> list A) (n : nat) :
  forall a, flat_map f (seq (S a) n) = flat_map (fun i => f (S i)) (seq a n).
Proof.
  induction n as [|n IH]; intros a; [reflexivity|].
  cbn [seq flat_map]. rewrite IH. reflexivity.
Qed.

Lemma cycles_flat_map (n : nat) :
  forall done dot,
    cycles n done dot
    = flat_map
        (fun i => [Write (bar (done + Z.of_nat i) (dot - Z.of_nat i) "."); Flush; Sleep])
        (seq 0 n).
Proof.
  induction n as [|n IH]; intros done dot; [reflexivity|].
  cbn [cycles seq flat_map]. rewrite Z.add_0_r, Z.sub_0_r. f_equal.
  rewrite IH, flat_map_seq_S.
  apply flat_map_ext. intros i.
  replace (done + 1 + Z.of_nat i) with (done + Z.of_nat (S i)) by lia.
  replace (dot - 1 - Z.of_nat i) with (dot - Z.of_nat (S i)) by lia.
  reflexivity.
Qed.

(** C7. When the polled flag is up from some poll on, [printProgress]
    terminates: with [k] the first poll that finds the flag up, it runs
    the [k + 1] print-and-sleep cycles up to and including the one in
    which [stop()] first returns [True], writes the filled bar and a
    newline, and returns; it runs no further iteration.  Cycle [i]
    writes a carriage return and, between brackets, [1 + i] blocks and
    [max(2, 7 - i)] dots; the filled bar has [k + 2] blocks followed by
    [max(2, 6 - k)] more. *)
Theorem printProgress_terminates (stop : nat -> bool) (n : nat) :
  (forall m, (n <= m)%nat -> stop m = true) ->
  let times (s : string) (c : Z) := String.concat "" (repeat s (Z.to_nat c)) in
  let frame (filled rest : Z) (c : string) :=
    String "013" ("[" +:+ times "█" filled +:+ times c (Z.max 2 rest) +:+ "]") in
  exists k,
    (k <= n)%nat /\ stop k = true /\ (forall j, (j < k)%nat -> stop j = false) /\
    forall fuel, (k < fuel)%nat ->
      printProgress fuel stop
      = Some (flat_map
                (fun i => [Write (frame (1 + Z.of_nat i) (7 - Z.of_nat i) ".");
                           Flush; Sleep])
                (seq 0 (S k))
                ++ [Write (frame (Z.of_nat k + 2) (6 - Z.of_nat k) "█"); Flush;
                    Write (String "010" "")],
              S k).
Proof.
  intros Hup. cbn zeta.
  destruct (first_poll stop n (Hup n (Nat.le_refl n))) as (k & Hk & Hks & Hfirst).
  exists k. repeat split; [assumption | assumption | assumption |].
  intros fuel Hfuel.
  rewrite (printProgress_runs_cycles stop k fuel Hks Hfirst Hfuel).
  rewrite cycles_flat_map, bar_characters.
  rewrite (flat_map_ext _
             (fun i =>
                [Write (String "013"
                          ("[" +:+ String.concat ""
                                     (repeat "█" (Z.to_nat (1 + Z.of_nat i)))
                               +:+ String.concat ""
                                     (repeat "." (Z.to_nat (Z.max 2 (7 - Z.of_nat i))))
                               +:+ "]"));
                 Flush; Sleep]))
    by (intros i; rewrite bar_characters; reflexivity).
  reflexivity.
Qed.

Lemma printProgress_terminates_witness :
  exists k,
    (k <= 2)%nat /\ Nat.leb 2 k = true /\
    (forall j, (j < k)%nat -> Nat.leb 2 j = false) /\
    forall fuel, (k < fuel)%nat ->
      printProgress fuel (Nat.leb 2)
      = Some (flat_map
                (fun i =>
                   [Write (String "013"
                             ("[" +:+ String.concat ""
                                        (repeat "█" (Z.to_nat (1 + Z.of_nat i)))
                                  +:+ String.concat ""
                                        (repeat "."
                                           (Z.to_nat (Z.max 2 (7 - Z.of_nat i))))
                                  +:+ "]"));
                    Flush; Sleep])
                (seq 0 (S k))
                ++ [Write (String "013"
                             ("[" +:+ String.concat ""
                                        (repeat "█" (Z.to_nat (Z.of_nat k + 2)))
                                  +:+ String.concat ""
                                        (repeat "█"
                                           (Z.to_nat (Z.max 2 (6 - Z.of_nat k))))
                                  +:+ "]"));
                    Flush; Write (String "010" "")],
              S k).
Proof.
  apply (printProgress_terminates (Nat.leb 2) 2).
  intros m Hm. apply Nat.leb_le. exact Hm.
Defined.

(** With the flag up at the third poll: three cycles, then the filled
    bar. *)
Example printProgress_third_poll :
  printProgress 3 (Nat.leb 2)
  = Some ([Write (String "013" "[█.......]"); Flush; Sleep;
           Write (String "013" "[██......]"); Flush; Sleep;
           Write (String "013" "[███.....]"); Flush; Sleep;
           Write (String "013" "[████████]"); Flush;
           Write (String "010" "")], 3%nat).
Proof. reflexivity. Qed.

(** With the flag up at the first poll the bar is drawn once with one
    block and seven dots, then filled with eight blocks. *)
Example printProgress_stop_at_once :
  printProgress 1 (fun _ => true)
  = Some ([Write (CR +:+ "[█.......]"); Flush; Sleep;
           Write (CR +:+ "[████████]"); Flush; Write LF], 1%nat).
Proof. reflexivity. Qed.

(** ** XlnetEmbeddings *)

Import Xlnet.

(** C5. A freshly constructed [XlnetEmbeddings] has the defaults
    [batchSize = 8], [dimension = 768], [maxSentenceLength = 128] and
    [caseSensitive = True], and no default for [configProtoBytes]: the
    constructor adds exactly these four defaults to what the superclass
    initialisers left (which set none for [configProtoBytes]) and sets no
    parameter explicitly, so with nothing set the four parameters read as
    their defaults and [configProtoBytes] has no value. *)
Theorem XlnetEmbeddings_defaults (base : Params) :
  getDefault base configProtoBytes = None ->
  exists self,
    __init__ base = Ok self
    /\ getDefault self batchSize = Some (VInt 8)
    /\ getDefault self dimension = Some (VInt 768)
    /\ getDefault self maxSentenceLength = Some (VInt 128)
    /\ getDefault self caseSensitive = Some (VBool true)
    /\ getDefault self configProtoBytes = None
    /\ hasDefault self configProtoBytes = false
    /\ _paramMap self = _paramMap base
    /\ (_paramMap base = ∅ ->
        getOrDefault self batchSize = Some (VInt 8)
        /\ getOrDefault self dimension = Some (VInt 768)
        /\ getOrDefault self maxSentenceLength = Some (VInt 128)
        /\ getOrDefault self caseSensitive = Some (VBool true)
        /\ getOrDefault self configProtoBytes = None).
Proof.
  intros Hcfg. unfold getDefault in Hcfg. cbn in Hcfg.
  eexists. split; [reflexivity|].
  unfold getDefault, hasDefault, getOrDefault. cbn.
  assert (Hc : <["caseSensitive":=VBool true]>
                 (<["maxSentenceLength":=VInt 128]>
                    (<["dimension":=VInt 768]>
                       (<["batchSize":=VInt 8]> (_defaultParamMap base))))
               !! "configProtoBytes" = None).
  { rewrite !lookup_insert_ne by discriminate. exact Hcfg. }
  repeat split.
  - rewrite !lookup_insert_ne by discriminate. apply lookup_insert_eq.
  - rewrite !lookup_insert_ne by discriminate. apply lookup_insert_eq.
  - rewrite !lookup_insert_ne by discriminate. apply lookup_insert_eq.
  - apply lookup_insert_eq.
  - exact Hc.
  - apply bool_decide_eq_false. rewrite Hc. intros [v Hv]. discriminate.
  - rewrite H, lookup_empty.
    rewrite !lookup_insert_ne by discriminate. apply lookup_insert_eq.
  - rewrite H, lookup_empty.
    rewrite !lookup_insert_ne by discriminate. apply lookup_insert_eq.
  - rewrite H, lookup_empty.
    rewrite !lookup_insert_ne by discriminate. apply lookup_insert_eq.
  - rewrite H, lookup_empty. apply lookup_insert_eq.
  - rewrite H, lookup_empty. exact Hc.
Qed.

Lemma XlnetEmbeddings_defaults_witness :
  exists self,
    __init__ fresh_model = Ok self
    /\ getDefault self batchSize = Some (VInt 8)
    /\ getDefault self dimension = Some (VInt 768)
    /\ getDefault self maxSentenceLength = Some (VInt 128)
    /\ getDefault self caseSensitive = Some (VBool true)
    /\ getDefault self configProtoBytes = None
    /\ hasDefault self configProtoBytes = false
    /\ _paramMap self = _paramMap fresh_model
    /\ (_paramMap fresh_model = ∅ ->
        getOrDefault self batchSize = Some (VInt 8)
        /\ getOrDefault self dimension = Some (VInt 768)
        /\ getOrDefault self maxSentenceLength = Some (VInt 128)
        /\ getOrDefault self caseSensitive = Some (VBool true)
        /\ getOrDefault self configProtoBytes = None).
Proof.
  apply (XlnetEmbeddings_defaults fresh_model).
  reflexivity.
Defined.

(** One keyword through [_set]: the parameter map gains that entry and
    the defaults are left alone. *)
Lemma _set_maxSentenceLength (o : Params) (z : Z) :
  int_fits_float z = true ->
  _set [("maxSentenceLength", VInt z)] o
  = Ok (mkParams (<["maxSentenceLength" := VInt z]> (_paramMap o))
          (_defaultParamMap o)).
Proof.
  intros Hz. cbn [_set getattr schema List.find name String.eqb].
  cbn -[int_fits_float]. rewrite Hz. reflexivity.
Qed.

Lemma int_fits_float_lt (z : Z) :
  Z.abs z < 2 ^ 1024 - 2 ^ 970 -> int_fits_float z = true.
Proof. intros H. unfold int_fits_float, float_halfway. apply Z.ltb_lt. exact H. Qed.

Lemma getOrDefault_insert_ne (o : Params) (n : string) (v : value) (p : Param) :
  n <> name p ->
  getOrDefault (mkParams (<[n := v]> (_paramMap o)) (_defaultParamMap o)) p
  = getOrDefault o p.
Proof.
  intros Hne. unfold getOrDefault. cbn.
  rewrite lookup_insert_ne by exact Hne. reflexivity.
Qed.

(** C6, as the code has it.  For every [XlnetEmbeddings] object and
    every integer [v] that [float(v)] accepts, that is of magnitude below
    [2 ** 1024 - 2 ** 970], [setMaxSentenceLength(v)] sets
    [maxSentenceLength] to [v], leaves [batchSize], [dimension],
    [caseSensitive] and [configProtoBytes] (their explicit values and all
    defaults) and every other object unchanged, and returns the reference
    it was called on, so that a further setter call on the result acts on
    the same object. *)
Theorem setMaxSentenceLength_frame (st : store) (self : ref) (o : Params) (v : Z) :
  st !! self = Some o ->
  Z.abs v < 2 ^ 1024 - 2 ^ 970 ->
  exists o',
    setMaxSentenceLength self (VInt v) st = Ok (self, <[self := o']> st)
    /\ getOrDefault o' maxSentenceLength = Some (VInt v)
    /\ _paramMap o' !! "maxSentenceLength" = Some (VInt v)
    /\ (forall p, p ∈ [batchSize; dimension; caseSensitive; configProtoBytes] ->
          _paramMap o' !! name p = _paramMap o !! name p
          /\ getOrDefault o' p = getOrDefault o p)
    /\ _defaultParamMap o' = _defaultParamMap o
    /\ (forall r, r <> self -> <[self := o']> st !! r = st !! r)
    /\ (forall w,
          Z.abs w < 2 ^ 1024 - 2 ^ 970 ->
          ('(r, st') ← setMaxSentenceLength self (VInt v) st;
           setMaxSentenceLength r (VInt w) st')
          = Ok (self,
                <[self := mkParams (<["maxSentenceLength" := VInt w]> (_paramMap o))
                            (_defaultParamMap o)]> st)).
Proof.
  intros Hself Hv.
  exists (mkParams (<["maxSentenceLength" := VInt v]> (_paramMap o))
            (_defaultParamMap o)).
  assert (Hcall : forall z,
    Z.abs z < 2 ^ 1024 - 2 ^ 970 ->
    setMaxSentenceLength self (VInt z) st
    = Ok (self, <[self := mkParams (<["maxSentenceLength" := VInt z]> (_paramMap o))
                            (_defaultParamMap o)]> st)).
  { intros z Hz. unfold setMaxSentenceLength, update. rewrite Hself.
    rewrite (_set_maxSentenceLength o z (int_fits_float_lt z Hz)). reflexivity. }
  split; [apply Hcall; exact Hv|].
  split; [unfold getOrDefault; cbn; rewrite lookup_insert_eq; reflexivity|].
  split; [cbn; apply lookup_insert_eq|].
  split.
  { intros p Hp.
    assert (Hne : "maxSentenceLength" <> name p).
    { rewrite !elem_of_cons in Hp.
      destruct Hp as [->|[->|[->|[->|Hp]]]]; try discriminate.
      apply elem_of_nil in Hp. contradiction. }
    split; [cbn; apply lookup_insert_ne; exact Hne|].
    apply getOrDefault_insert_ne. exact Hne. }
  split; [reflexivity|].
  split; [intros r Hr; apply lookup_insert_ne; congruence|].
  intros w Hw. rewrite (Hcall v Hv). cbn [mbind result_bind].
  unfold setMaxSentenceLength, update.
  rewrite lookup_insert_eq.
  rewrite (_set_maxSentenceLength _ w (int_fits_float_lt w Hw)).
  cbn [mbind result_bind _paramMap _defaultParamMap].
  rewrite !insert_insert_eq. reflexivity.
Qed.

Lemma setMaxSentenceLength_frame_witness :
  exists o',
    setMaxSentenceLength 1%positive (VInt 256) {[1%positive := fresh_model]}
    = Ok (1%positive, <[1%positive := o']> {[1%positive := fresh_model]})
    /\ getOrDefault o' maxSentenceLength = Some (VInt 256).
Proof.
  assert (Hself : ({[1%positive := fresh_model]} : store) !! 1%positive
                  = Some fresh_model) by reflexivity.
  assert (Hv : Z.abs 256 < 2 ^ 1024 - 2 ^ 970) by (vm_compute; reflexivity).
  destruct (setMaxSentenceLength_frame {[1%positive := fresh_model]} 1%positive
              fresh_model 256 Hself Hv)
    as (o' & Hcall & Hget & _).
  exists o'. split; assumption.
Defined.

(** C6, as stated, fails on an integer too large for a float: with
    [v = 2 ** 1024] the converter's [float(value)] overflows, the setter
    raises [OverflowError] and nothing is set. *)
Lemma setMaxSentenceLength_overflow :
  setMaxSentenceLength 1%positive (VInt (2 ^ 1024)) {[1%positive := fresh_model]}
  = Raise OverflowError
  /\ ~ exists o',
        setMaxSentenceLength 1%positive (VInt (2 ^ 1024))
          {[1%positive := fresh_model]}
        = Ok (1%positive, <[1%positive := o']> {[1%positive := fresh_model]}).
Proof.
  assert (H : setMaxSentenceLength 1%positive (VInt (2 ^ 1024))
                {[1%positive := fresh_model]} = Raise OverflowError)
    by (vm_compute; reflexivity).
  split; [exact H|]. intros [o' Ho']. rewrite H in Ho'. discriminate.
Qed.

(** ** RNNLM: the learning-rate schedule *)

Import RnnLm.

(** C10, as the code has it.  For every global step [s] and every pair
    of initial and final learning rates given as Python floats, the graph
    is built and the rate fed to the optimizer is the larger of
    [initial_learning_rate * 0.96 ^ floor(s / 150)] and
    [final_learning_rate], computed on their [float32] values; in
    particular it is never below [final_learning_rate].  This holds in
    any arithmetic whose [less] decides a total order, which
    [final <= initial] and [s >= 0] need not be assumed for. *)
Theorem learning_rate_is_max
    {P R : Type} (le : R -> R -> Prop)
    (to_float32 : P -> R) (literal : Q -> P)
    (mul : R -> R -> R) (pow : R -> Z -> R) (less : R -> R -> bool) :
  (forall a b, less a b = true -> le a b) ->
  (forall a b, less a b = false -> le b a) ->
  (forall a, le a a) ->
  forall (initial final : P) (s : Z),
    let decayed :=
      mul (to_float32 initial) (pow (to_float32 (literal (96 # 100))) (s / 150)) in
    exists rate,
      learning_rate to_float32 literal mul pow less
        (PyFloat initial) (PyFloat final) s = Built rate
      /\ (rate = decayed \/ rate = to_float32 final)
      /\ le decayed rate
      /\ le (to_float32 final) rate.
Proof.
  intros Hlt Hge Hrefl initial final s. cbn zeta.
  unfold learning_rate, exponential_decay.
  destruct (less (mul (to_float32 initial)
                    (pow (to_float32 (literal (96 # 100))) (s / 150)))
              (to_float32 final)) eqn:Hless;
    eexists; (split; [reflexivity|]).
  - apply Hlt in Hless. repeat split; auto.
  - apply Hge in Hless. repeat split; auto.
Qed.

Lemma Qless_true (a b : Q) : Qless a b = true -> (a <= b)%Q.
Proof.
  unfold Qless. destruct (Qcompare a b) eqn:Hc; try discriminate.
  intros _. apply Qlt_le_weak. apply Qlt_alt. exact Hc.
Qed.

Lemma Qless_false (a b : Q) : Qless a b = false -> (b <= a)%Q.
Proof.
  unfold Qless. destruct (Qcompare a b) eqn:Hc; try discriminate; intros _.
  - apply Qeq_alt in Hc. rewrite Hc. apply Qle_refl.
  - apply Qlt_le_weak. apply Qgt_alt in Hc. exact Hc.
Qed.

(** In exact arithmetic the schedule is [Qmax] of the decayed rate and
    the floor. *)
Lemma Qlearning_rate_Qmax (initial final : Q) (s : Z) :
  exists rate,
    Qlearning_rate (PyFloat initial) (PyFloat final) s = Built rate
    /\ (rate == Qmax (initial * (96 # 100) ^ (s / 150)) final)%Q.
Proof.
  unfold Qlearning_rate, learning_rate, exponential_decay.
  eexists. split; [reflexivity|].
  destruct (Qless _ final) eqn:Hless.
  - apply Qless_true in Hless. symmetry. apply Q.max_r. exact Hless.
  - apply Qless_false in Hless. symmetry. apply Q.max_l. exact Hless.
Qed.

Lemma learning_rate_is_max_witness :
  exists rate,
    Qlearning_rate (PyFloat 1%Q) (PyFloat (1 # 1000)%Q) 300 = Built rate
    /\ (rate = (1 * (96 # 100) ^ (300 / 150))%Q \/ rate = (1 # 1000)%Q)
    /\ ((1 * (96 # 100) ^ (300 / 150))%Q <= rate)%Q
    /\ (1 # 1000 <= rate)%Q.
Proof.
  apply (learning_rate_is_max Qle (fun q => q) (fun q => q) Qmult Qpower Qless
           Qless_true Qless_false Qle_refl 1%Q (1 # 1000)%Q 300).
Defined.

(** C10, as stated, fails on a rate given as a Python int, and the
    constructor's own default [initial_learning_rate=1] is one: the graph
    is not built, so no rate is fed at any step. *)
Lemma learning_rate_int_rate :
  Qlearning_rate (PyInt 1) (PyFloat (1 # 1000)%Q) 0 = DtypeError
  /\ ~ exists rate,
        Qlearning_rate (PyInt 1) (PyFloat (1 # 1000)%Q) 0 = Built rate.
Proof.
  split; [reflexivity|]. intros [rate H]. discriminate.
Qed.

(** After 300 steps the rate has decayed twice; after 30000 steps the
    floor has taken over. *)
Example Qlearning_rate_300 :
  Qlearning_rate (PyFloat 1%Q) (PyFloat (1 # 1000)%Q) 300
  = Built ((1 * (96 # 100) ^ 2)%Q).
Proof. reflexivity. Qed.

Example Qlearning_rate_30000 :
  Qlearning_rate (PyFloat 1%Q) (PyFloat (1 # 1000)%Q) 30000
  = Built (1 # 1000)%Q.
Proof. vm_compute. reflexivity. Qed.

(** ** RNNLM: parse *)

Section ParseFacts.
Variable string_split : string -> list string.
Variable string_to_number : string -> option Z.

(** Tokens that all convert give their numbers, in order. *)
Lemma to_numbers_Forall2 (ts : list string) (zs : list Z) :
  Forall2 (fun t z => string_to_number t = Some z) ts zs ->
  to_numbers string_to_number ts = Ok zs.
Proof.
  induction 1 as [|t z ts zs Ht _ IH]; [reflexivity|].
  cbn [to_numbers]. rewrite Ht, IH. reflexivity.
Qed.

(** One token that does not convert fails the whole vector. *)
Lemma to_numbers_None (ts : list string) (t : string) :
  t ∈ ts -> string_to_number t = None ->
  to_numbers string_to_number ts = Raise InvalidArgumentError.
Proof.
  intros Hin Hnone. induction ts as [|t' ts IH]; [inversion Hin|].
  cbn [to_numbers]. apply elem_of_cons in Hin as [<-|Hin].
  - rewrite Hnone. reflexivity.
  - destruct (string_to_number t'); [|reflexivity].
    rewrite (IH Hin). reflexivity.
Qed.
End ParseFacts.

Lemma slice_to_last_length {A} (l : list A) :
  length (slice_to_last l) = (length l - 1)%nat.
Proof. unfold slice_to_last. rewrite length_take. lia. Qed.

Lemma slice_from_1_length {A} (l : list A) :
  length (slice_from_1 l) = (length l - 1)%nat.
Proof. unfold slice_from_1. rewrite length_drop. reflexivity. Qed.

Lemma slice_to_last_lookup {A} (l : list A) (i : nat) :
  (i < length l - 1)%nat -> slice_to_last l !! i = l !! i.
Proof. intros Hi. unfold slice_to_last. apply lookup_take_lt. exact Hi. Qed.

Lemma slice_from_1_lookup {A} (l : list A) (i : nat) :
  slice_from_1 l !! i = l !! S i.
Proof. unfold slice_from_1. rewrite lookup_drop. reflexivity. Qed.

(** C9, as the code has it.  For every line whose split yields the
    tokens [t_0 ... t_(n-1)], [n >= 1], each of which converts to a 32-bit
    integer [z_i], [parse] returns the pair ([z_0 ... z_(n-2)],
    [z_1 ... z_(n-1)]): both sequences have length [n - 1] and the output
    sequence is the input sequence shifted left by one position. *)
Theorem parse_shift
    (string_split : string -> list string)
    (string_to_number : string -> option Z)
    (line : string) (ts : list string) (zs : list Z) :
  string_split line = ts ->
  (1 <= length ts)%nat ->
  Forall2 (fun t z => string_to_number t = Some z) ts zs ->
  exists input_seq output_seq,
    parse string_split string_to_number line = Ok (input_seq, output_seq)
    /\ length input_seq = (length ts - 1)%nat
    /\ length output_seq = (length ts - 1)%nat
    /\ (forall i, (i < length ts - 1)%nat ->
          input_seq !! i = zs !! i /\ output_seq !! i = zs !! S i)
    /\ (forall i, (S i < length ts - 1)%nat ->
          output_seq !! i = input_seq !! S i).
Proof.
  intros Hsplit Hn Hnum.
  pose proof (Forall2_length _ _ _ Hnum) as Hlen.
  exists (slice_to_last zs), (slice_from_1 zs).
  split.
  { unfold parse. rewrite Hsplit.
    rewrite (to_numbers_Forall2 _ (slice_to_last ts) (slice_to_last zs)).
    2:{ unfold slice_to_last. rewrite Hlen. apply Forall2_take. exact Hnum. }
    cbn [mbind result_bind].
    rewrite (to_numbers_Forall2 _ (slice_from_1 ts) (slice_from_1 zs)).
    2:{ unfold slice_from_1. apply Forall2_drop. exact Hnum. }
    reflexivity. }
  rewrite slice_to_last_length, slice_from_1_length, <- Hlen.
  repeat split.
  - apply slice_to_last_lookup. lia.
  - apply slice_from_1_lookup.
  - intros i Hi. rewrite slice_from_1_lookup.
    symmetry. apply slice_to_last_lookup. lia.
Qed.

Lemma parse_shift_witness :
  exists input_seq output_seq,
    parse tf_string_split tf_string_to_number "1 8008 3358 2"
    = Ok (input_seq, output_seq)
    /\ input_seq = [1; 8008; 3358] /\ output_seq = [8008; 3358; 2].
Proof.
  destruct (parse_shift tf_string_split tf_string_to_number "1 8008 3358 2"
              ["1"; "8008"; "3358"; "2"]%string [1; 8008; 3358; 2])
    as (input_seq & output_seq & Hparse & _).
  - reflexivity.
  - simpl. lia.
  - repeat constructor.
  - exists input_seq, output_seq.
    split; [exact Hparse|].
    vm_compute in Hparse. injection Hparse as <- <-. split; reflexivity.
Defined.

(** C9, as stated, fails in two ways.  On the line ["a b"] the white
    space split gives two tokens, and [parse] raises instead of returning
    a pair, since the tokens are no numbers.  On the line [1<TAB>2] the
    white space split gives the two tokens ["1"] and ["2"], but the
    framework splits at spaces only, sees one token and [parse] returns
    two empty sequences, not sequences of length [2 - 1]. *)
Lemma parse_shift_fails :
  (whitespace_split "a b" = ["a"; "b"]%string
   /\ parse tf_string_split tf_string_to_number "a b" = Raise InvalidArgumentError
   /\ ~ exists input_seq output_seq,
          parse tf_string_split tf_string_to_number "a b"
          = Ok (input_seq, output_seq))
  /\ (whitespace_split tab_line = ["1"; "2"]%string
      /\ tf_string_split tab_line = [tab_line]
      /\ parse tf_string_split tf_string_to_number tab_line = Ok ([], [])
      /\ parse tf_string_split tf_string_to_number tab_line <> Ok ([1], [2])).
Proof.
  split.
  - split; [reflexivity|]. split; [reflexivity|].
    intros (i & o & H). vm_compute in H. discriminate.
  - split; [reflexivity|]. split; [reflexivity|]. split; [reflexivity|].
    vm_compute. discriminate.
Qed.

(** The reference conversion takes white space around the digits and a
    minus sign, and nothing beyond 32 bits. *)
Example tf_string_to_number_samples :
  tf_string_to_number " 42" = Some 42
  /\ tf_string_to_number (String "009" "7 ") = Some 7
  /\ tf_string_to_number "-2147483648" = Some (-2147483648)
  /\ tf_string_to_number "2147483648" = None
  /\ tf_string_to_number "1 2" = None
  /\ tf_string_to_number "-" = None
  /\ tf_string_to_number "" = None.
Proof. repeat split; reflexivity. Qed.

(** ** RNNLM: batch_train *)

(** The log of a bind is the log of its first part followed, when that
    part returns, by the log of the rest. *)
Lemma io_bind_log {E A B} (m : io E A) (f : A -> io E B) :
  fst (m ≫= f)
  = fst m ++ match snd m with Ok a => fst (f a) | Raise _ => [] end.
Proof.
  destruct m as [t [a|e]]; cbn.
  - destruct (f a). reflexivity.
  - rewrite app_nil_r. reflexivity.
Qed.

Lemma quiet_bind {E A B} (p : E -> bool) (m : io E A) (f : A -> io E B) :
  quiet p m -> (forall a, quiet p (f a)) -> quiet p (m ≫= f).
Proof.
  unfold quiet. intros Hm Hf. rewrite io_bind_log, List.filter_app, Hm.
  destruct (snd m) as [a|e]; [apply Hf | reflexivity].
Qed.

Lemma quiet_emit {E} (p : E -> bool) (e : E) :
  p e = false -> quiet p (emit e).
Proof. unfold quiet. cbn. intros ->. reflexivity. Qed.

Lemma quiet_lift {E A} (p : E -> bool) (r : result A) :
  quiet p (lift (E:=E) r).
Proof. reflexivity. Qed.

Section TrainFacts.
Context {F : Type}.
Variable zero inf : F.
Variable add : F -> F -> F.
Variable np_sum : list F -> F.
Variable div : F -> Z -> F.
Variable math_exp : F -> result F.
Variable lt : F -> F -> bool.
Variable train_data : nat -> list (train_fetch F).
Variable valid_data : nat -> list (valid_fetch F).
Variable num_epochs : Z.
Variable check_point_step : Z.

Local Abbreviation train_pass := (train_pass zero add np_sum div math_exp check_point_step).
Local Abbreviation valid_pass := (valid_pass add np_sum).
Local Abbreviation iteration :=
  (iteration zero add np_sum div math_exp lt train_data valid_data
     num_epochs check_point_step).
Local Abbreviation epochs :=
  (epochs zero add np_sum div math_exp lt train_data valid_data
     num_epochs check_point_step).

(** A pass over the training data logs batches and checkpoint reports
    only. *)
Lemma train_pass_quiet (p : step F -> bool) :
  p TrainBatch = false -> p GcCollect = false ->
  (forall g l, p (PrintStep g l) = false) ->
  (forall x, p (PrintTrainPPL x) = false) ->
  forall batches train_loss train_valid_words,
    quiet p (train_pass batches train_loss train_valid_words).
Proof.
  intros Hb Hg Hs Hp. induction batches as [|b batches IH]; intros l w.
  - reflexivity.
  - cbn [RnnLm.train_pass].
    apply quiet_bind; [apply quiet_emit, Hb | intros _].
    destruct (np_mod (t_global_step b) check_point_step =? 0); [|apply IH].
    apply quiet_bind; [apply quiet_emit, Hg | intros _].
    apply quiet_bind; [apply quiet_lift | intros train_ppl].
    apply quiet_bind; [apply quiet_emit, Hs | intros _].
    apply quiet_bind; [apply quiet_emit, Hp | intros _].
    apply IH.
Qed.

(** A pass over the validation data always reaches the end of the
    data, logging one step per batch. *)
Lemma valid_pass_runs batches :
  forall dev_loss dev_valid_words fetched,
  exists l w f,
    valid_pass batches dev_loss dev_valid_words fetched
    = (repeat ValidBatch (length batches), Ok (l, w, f))
    /\ f = (fetched || negb (Nat.eqb (length batches) 0)).
Proof.
  induction batches as [|b batches IH]; intros l w f.
  - exists l, w, f. split; [reflexivity|]. cbn. rewrite orb_false_r. reflexivity.
  - cbn [RnnLm.valid_pass].
    destruct (IH (add l (np_sum (v_loss b))) (w + v_valid_words b) true)
      as (l' & w' & f' & Hrun & Hf).
    exists l', w', f'. split.
    + cbn. rewrite Hrun. reflexivity.
    + rewrite Hf. cbn. rewrite orb_true_r. reflexivity.
Qed.

Lemma filter_repeat_ValidBatch (p : step F -> bool) n :
  p ValidBatch = false -> List.filter p (repeat ValidBatch n) = [].
Proof. intros Hp. induction n; cbn; [|rewrite Hp]; auto. Qed.

Local Ltac count_log :=
  repeat first
    [ progress cbn [List.filter is_TrainInit is_ValidInit is_PrintValidPPL
                      app length]
    | rewrite List.filter_app
    | match goal with H : List.filter _ _ = [] |- _ => rewrite H end ].

(** One iteration of the outer loop: it begins one training pass and
    no other; if it returns, it has finished one training pass and one
    validation pass and has set [epoch] to [num_epochs]. *)
Lemma iteration_once pass st :
  exists t r,
    iteration pass st = (t, r)
    /\ begun t = 1%nat
    /\ forall st', r = Ok st' ->
         trained t = 1%nat /\ validated t = 1%nat /\ epoch st' = num_epochs.
Proof.
  unfold RnnLm.iteration, begun, trained, validated.
  pose proof (train_pass_quiet is_TrainInit eq_refl eq_refl
                (fun _ _ => eq_refl) (fun _ => eq_refl)
                (train_data pass) zero 0) as Ht1.
  pose proof (train_pass_quiet is_ValidInit eq_refl eq_refl
                (fun _ _ => eq_refl) (fun _ => eq_refl)
                (train_data pass) zero 0) as Ht2.
  pose proof (train_pass_quiet is_PrintValidPPL eq_refl eq_refl
                (fun _ _ => eq_refl) (fun _ => eq_refl)
                (train_data pass) zero 0) as Ht3.
  destruct (train_pass (train_data pass) zero 0) as [t1 [[]|e]];
    unfold quiet in Ht1, Ht2, Ht3; cbn [fst] in Ht1, Ht2, Ht3.
  2:{ eexists _, _. split; [reflexivity|]. count_log.
      split; [reflexivity | discriminate]. }
  destruct (valid_pass_runs (valid_data pass) zero 0 false)
    as (l & w & f & Hv & _).
  cbn. rewrite Hv. cbn.
  pose proof (filter_repeat_ValidBatch is_TrainInit
                (length (valid_data pass)) eq_refl) as Hv1.
  pose proof (filter_repeat_ValidBatch is_ValidInit
                (length (valid_data pass)) eq_refl) as Hv2.
  pose proof (filter_repeat_ValidBatch is_PrintValidPPL
                (length (valid_data pass)) eq_refl) as Hv3.
  destruct f; cbn.
  2:{ eexists _, _. split; [reflexivity|]. count_log.
      split; [reflexivity | discriminate]. }
  destruct (math_exp (div l w)) as [dev_ppl|e]; cbn.
  2:{ eexists _, _. split; [reflexivity|]. count_log.
      split; [reflexivity | discriminate]. }
  destruct (lt dev_ppl (best_score st)); cbn;
    (eexists _, _; split; [reflexivity|]); count_log;
    (split; [reflexivity|]); intros st' [= <-]; cbn; auto.
Qed.

(** Once [epoch] has reached [num_epochs] the loop is over, whatever
    fuel is left. *)
Lemma epochs_done fuel pass st :
  epoch st = num_epochs -> epochs fuel pass st = Some ([], Ok st).
Proof.
  intros He. destruct fuel; cbn; rewrite He, Z.ltb_irrefl; reflexivity.
Qed.
End TrainFacts.

(** C2, as the code has it.  For every [num_epochs >= 1], every finite
    training and validation data and any fuel, [batch_train] terminates
    after one iteration of its outer loop: it begins exactly one training
    pass, and when it returns it has completed one training pass and one
    validation pass, whatever [num_epochs] is. *)
Theorem batch_train_single_iteration
    {F : Type} (zero inf : F) (add : F -> F -> F) (np_sum : list F -> F)
    (div : F -> Z -> F) (math_exp : F -> result F) (lt : F -> F -> bool)
    (train_data : nat -> list (train_fetch F))
    (valid_data : nat -> list (valid_fetch F))
    (num_epochs check_point_step : Z) (fuel : nat) :
  1 <= num_epochs ->
  exists t r,
    batch_train zero inf add np_sum div math_exp lt train_data valid_data
      num_epochs check_point_step (S fuel) = Some (t, r)
    /\ begun t = 1%nat
    /\ forall st, r = Ok st ->
         trained t = 1%nat /\ validated t = 1%nat /\ epoch st = num_epochs.
Proof.
  intros Hn. unfold batch_train. cbn [epochs epoch].
  destruct (Z.ltb_spec 0 num_epochs) as [_|Habs]; [|lia].
  destruct (iteration_once zero add np_sum div math_exp lt train_data valid_data
              num_epochs check_point_step 0%nat (Locals inf 5 0))
    as (t & r & Hit & Hbegun & Hok).
  rewrite Hit. destruct r as [st'|e].
  - destruct (Hok st' eq_refl) as (Htr & Hva & Hep).
    rewrite epochs_done by exact Hep. cbn.
    exists (t ++ []), (Ok st'). rewrite app_nil_r.
    split; [reflexivity|]. split; [exact Hbegun|].
    intros st [= <-]. auto.
  - exists t, (Raise e). split; [reflexivity|]. split; [exact Hbegun|].
    discriminate.
Qed.

Lemma batch_train_single_iteration_witness :
  exists t r,
    toy_batch_train 3 5 = Some (t, r)
    /\ begun t = 1%nat
    /\ forall st, r = Ok st ->
         trained t = 1%nat /\ validated t = 1%nat /\ epoch st = 3.
Proof.
  apply (batch_train_single_iteration 0 1000 Z.add toy_sum Z.div Ok Z.ltb
           toy_train toy_valid 3 2 4).
  lia.
Defined.

(** Asked for three epochs, the loop trains once, validates once and
    leaves with [epoch = 3]; every line it prints says epoch 0. *)
Example batch_train_three_epochs :
  toy_batch_train 3 5
  = Some ([TrainInit; PrintEpoch 0; TrainBatch; TrainBatch; GcCollect;
           PrintStep 2 1; PrintTrainPPL 4; ValidInit; ValidBatch;
           PrintValidPPL 4; SaveBest],
          Ok (Locals 4 5 3)).
Proof. reflexivity. Qed.

(** An empty validation file ends the call in the first iteration. *)
Example batch_train_empty_validation :
  batch_train 0 1000 Z.add toy_sum Z.div Ok Z.ltb toy_train (fun _ => [])
    3 2 5
  = Some ([TrainInit; PrintEpoch 0; TrainBatch; TrainBatch; GcCollect;
           PrintStep 2 1; PrintTrainPPL 4; ValidInit],
          Raise ZeroDivisionError).
Proof. reflexivity. Qed.

(** * Further properties *)

(** ** Bridge wrappers *)

(** X1. [ResourceDownloader.showPublicPipelines] never reaches the remote
    side: it calls [_ShowPublicPipelines()] without arguments, whose
    constructor requires [lang] and [version], so every call raises
    [TypeError] and logs nothing. *)
Theorem showPublicPipelines_missing_arguments
    (jvm : string -> list value -> result handle) :
  showPublicPipelines jvm
  = ([], Raise (TypeError_missing "_ShowPublicPipelines.__init__"
                  ["lang"; "version"])).
Proof. reflexivity. Qed.

(** X2. [downloadPipeline] starts the progress thread, makes the remote
    download call and wraps the handle it returns as [JavaModel(j_obj)].
    When the download call or the wrapping raises, that exception is
    raised with the thread started and never told to stop: the stop flag
    is not set and the thread is not joined.  When both succeed, the flag
    is set, the thread joined and the done line printed, in this order and
    last, and the wrapped model is returned. *)
Theorem downloadPipeline_thread
    {Model : Type}
    (jvm : string -> list value -> result handle)
    (JavaModel : handle -> result Model)
    (name language : string) (remote_loc : value) :
  let started :=
    [Print (name +:+ " download started this may take some time");
     ThreadStart;
     Remote "com.johnsnowlabs.nlp.pretrained.PythonResourceDownloader.downloadPipeline"
       [VStr name; VStr language; remote_loc]] in
  downloadPipeline jvm JavaModel name language remote_loc
  = match jvm "com.johnsnowlabs.nlp.pretrained.PythonResourceDownloader.downloadPipeline"
            [VStr name; VStr language; remote_loc] with
    | Raise e => (started, Raise e)
    | Ok j_obj =>
        match JavaModel j_obj with
        | Raise e => (started, Raise e)
        | Ok jmodel =>
            (started ++ [StopFlagSet; ThreadJoin; Print "Download done"], Ok jmodel)
        end
    end.
Proof.
  cbn zeta. rewrite downloadPipeline_delegates.
  destruct (jvm _ _) as [j_obj|e]; cbn; [|reflexivity].
  destruct (JavaModel j_obj); reflexivity.
Qed.

(** [ResourceDownloader.clearCache] is a plain pass-through: one
    remote call to [clearCache] with the three arguments, no line
    printed, no thread started; it raises exactly what the remote call
    raises. *)
Lemma clearCache_pass_through
    (jvm : string -> list value -> result handle)
    (name language : string) (remote_loc : value) :
  clearCache jvm name language remote_loc
  = ([Remote "com.johnsnowlabs.nlp.pretrained.PythonResourceDownloader.clearCache"
        [VStr name; VStr language; remote_loc]],
     _ ← jvm "com.johnsnowlabs.nlp.pretrained.PythonResourceDownloader.clearCache"
           [VStr name; VStr language; remote_loc];
     Ok tt).
Proof.
  unfold clearCache, remote_apply, apply. cbn.
  destruct (jvm _ _); reflexivity.
Qed.

(** X3. [_DownloadModel] uses its fifth argument [validator] only to
    build the remote class name: with a string [validator] the wrapper
    names [com.johnsnowlabs.nlp.pretrained.<validator>.downloadModel] and
    carries exactly the four other arguments; a [validator] that is no
    string raises [TypeError]. *)
Theorem DownloadModel_validator (reader name language remote_loc validator : value) :
  _DownloadModel [reader; name; language; remote_loc; validator]
  = match validator with
    | VStr v =>
        Ok (Wrapper ("com.johnsnowlabs.nlp.pretrained." +:+ v +:+ ".downloadModel")
              [reader; name; language; remote_loc])
    | _ => Raise TypeError_operand
    end.
Proof. destruct validator; reflexivity. Qed.

(** X4. [_DownloadModelDirectly] accepts one to three positional
    arguments and fills in [remote_loc = "public/models"] and
    [unzip = True] for the ones left out; no argument or more than three
    raise [TypeError]. *)
Theorem DownloadModelDirectly_defaults (args : list value) :
  _DownloadModelDirectly args
  = match args with
    | [] => Raise (TypeError_missing "_DownloadModelDirectly.__init__" ["name"])
    | [name] =>
        _DownloadModelDirectly [name; VStr "public/models"; VBool true]
    | [name; remote_loc] =>
        _DownloadModelDirectly [name; remote_loc; VBool true]
    | [name; remote_loc; unzip] =>
        Ok (Wrapper
              "com.johnsnowlabs.nlp.pretrained.PythonResourceDownloader.downloadModelDirectly"
              [name; remote_loc; unzip])
    | _ =>
        Raise (TypeError_too_many "_DownloadModelDirectly.__init__" 3 (length args))
    end.
Proof.
  destruct args as [|a [|b [|c [|d args]]]]; reflexivity.
Qed.

(** X5. With a DataFrame target, [_CoNLLGeneratorExportFromTargetAndPipeline]
    never looks at its [spark] argument: any two values of it, also ones
    without [_jsparkSession], give the same three-argument wrapper.
    With any other target a [spark] without [_jsparkSession] never yields
    a wrapper. *)
Theorem conll_spark_only_without_DataFrame
    (_to_java : handle -> result handle)
    (PipelineModel_load : string -> result handle)
    (pipeline : conll_pipeline) (output_path : value) :
  (forall spark spark' jdf,
     _CoNLLGeneratorExportFromTargetAndPipeline _to_java PipelineModel_load
       spark (CDataFrame jdf) pipeline output_path
     = _CoNLLGeneratorExportFromTargetAndPipeline _to_java PipelineModel_load
         spark' (CDataFrame jdf) pipeline output_path)
  /\ (forall jdf spark w,
        _CoNLLGeneratorExportFromTargetAndPipeline _to_java PipelineModel_load
          spark (CDataFrame jdf) pipeline output_path = Ok w ->
        length (java_args w) = 3%nat /\ java_args w !! 0%nat = Some (VJava jdf))
  /\ (forall v target w,
        _CoNLLGeneratorExportFromTargetAndPipeline _to_java PipelineModel_load
          (NoSession v) (CValue target) pipeline output_path <> Ok w)
  /\ (forall j target w,
        _CoNLLGeneratorExportFromTargetAndPipeline _to_java PipelineModel_load
          (Session j) (CValue target) pipeline output_path = Ok w ->
        length (java_args w) = 4%nat
        /\ java_args w !! 0%nat = Some (VJava j)
        /\ java_args w !! 1%nat = Some target).
Proof.
  unfold _CoNLLGeneratorExportFromTargetAndPipeline.
  split; [reflexivity|]. split; [|split].
  - intros jdf spark w. destruct (convert_pipeline _ _ pipeline); cbn;
      intros [= <-]; split; reflexivity.
  - intros v target w. destruct (convert_pipeline _ _ pipeline); cbn; discriminate.
  - intros j target w. destruct (convert_pipeline _ _ pipeline); cbn;
      intros [= <-]; repeat split; reflexivity.
Qed.

(** X6. The pipeline argument is converted only when it is a
    [PipelineModel] or a path string; a value of any other type is
    forwarded to the remote side as it is, without any call to
    [_to_java] or [PipelineModel.load], in both shapes of the call: after
    [target._jdf] for a DataFrame target, after the session and the target
    otherwise (where a [spark] without [_jsparkSession] raises
    [AttributeError]). *)
Theorem conll_pipeline_forwarded
    (_to_java : handle -> result handle)
    (PipelineModel_load : string -> result handle)
    (spark : conll_spark) (target : conll_target) (v output_path : value) :
  (forall path, v <> VStr path) ->
  _CoNLLGeneratorExportFromTargetAndPipeline _to_java PipelineModel_load
    spark target (PValue v) output_path
  = match target with
    | CDataFrame jdf =>
        Ok (Wrapper "com.johnsnowlabs.util.CoNLLGenerator.exportConllFiles"
              [VJava jdf; v; output_path])
    | CValue target =>
        match spark with
        | Session jsparkSession =>
            Ok (Wrapper "com.johnsnowlabs.util.CoNLLGenerator.exportConllFiles"
                  [VJava jsparkSession; target; v; output_path])
        | NoSession _ => Raise (AttributeError "_jsparkSession")
        end
    end.
Proof.
  intros Hv. unfold _CoNLLGeneratorExportFromTargetAndPipeline.
  assert (Hconv : convert_pipeline _to_java PipelineModel_load (PValue v) = Ok v).
  { destruct v; try reflexivity. exfalso. exact (Hv s eq_refl). }
  rewrite Hconv. cbn. destruct target as [jdf|t]; [reflexivity|].
  destruct spark; reflexivity.
Qed.

Lemma conll_pipeline_forwarded_witness :
  _CoNLLGeneratorExportFromTargetAndPipeline
    (fun _ => Raise (JavaError 1%positive)) (fun _ => Raise (JavaError 2%positive))
    (Session 9%positive) (CValue (VStr "data/")) (PValue (VInt 3)) (VStr "out")
  = Ok (Wrapper "com.johnsnowlabs.util.CoNLLGenerator.exportConllFiles"
          [VJava 9%positive; VStr "data/"; VInt 3; VStr "out"]).
Proof.
  apply (conll_pipeline_forwarded (fun _ => Raise (JavaError 1%positive))
           (fun _ => Raise (JavaError 2%positive)) (Session 9%positive)
           (CValue (VStr "data/")) (VInt 3) (VStr "out")).
  intros path. discriminate.
Defined.

(** ** PretrainedPipeline, continued *)

(** X7. [annotate] and [fullAnnotate] reject the same calls with the
    same exception: for every target and column one raises an exception
    of the pipeline's own exactly when the other raises it; and on a
    DataFrame target they agree for every column, missing or not. *)
Theorem annotate_fullAnnotate_same_errors
    {DataFrame Annotated : Type}
    (withColumnRenamed : DataFrame -> value -> string -> remote DataFrame)
    (model_transform : DataFrame -> remote Annotated)
    (light_annotate light_fullAnnotate : target DataFrame -> remote Annotated)
    (t : target DataFrame) (column : value) :
  (forall msg,
     annotate withColumnRenamed model_transform light_annotate t column
     = Raise (Exception msg)
     <-> fullAnnotate withColumnRenamed model_transform light_fullAnnotate t column
         = Raise (Exception msg))
  /\ (forall df, t = TDataFrame df ->
        annotate withColumnRenamed model_transform light_annotate t column
        = fullAnnotate withColumnRenamed model_transform light_fullAnnotate t column).
Proof.
  split.
  - intros msg. destruct t as [df|l|s|ty]; cbn; try reflexivity;
      split; intros H; exfalso; exact (propagate_not_Exception _ _ H).
  - intros df ->. reflexivity.
Qed.

(** ** printProgress, continued *)

Lemma printProgress_loop_None (stop : nat -> bool) (fuel : nat) :
  forall polls done dot out,
    printProgress_loop fuel stop polls done dot out = None
    <-> forall i, (i < fuel)%nat -> stop (polls + i)%nat = false.
Proof.
  induction fuel as [|fuel IH]; intros polls done dot out.
  - cbn. split; [intros _ i Hi; lia | reflexivity].
  - cbn [printProgress_loop]. destruct (stop polls) eqn:Hs.
    + split; [discriminate|]. intros H. specialize (H 0%nat).
      rewrite Nat.add_0_r, Hs in H. assert (true = false) by (apply H; lia).
      discriminate.
    + rewrite IH. split.
      * intros H [|i] Hi; [rewrite Nat.add_0_r; exact Hs|].
        replace (polls + S i)%nat with (S polls + i)%nat by lia. apply H. lia.
      * intros H i Hi.
        replace (S polls + i)%nat with (polls + S i)%nat by lia. apply H. lia.
Qed.

(** X8. [printProgress] has no exit other than the flag: it is still
    running after [n] cycles exactly when the first [n] polls found the
    flag down.  With a flag that never goes up (as after a download call
    that raised before setting it) it never returns. *)
Theorem printProgress_runs_while_flag_down (stop : nat -> bool) (n : nat) :
  printProgress n stop = None
  <-> forall i, (i < n)%nat -> stop i = false.
Proof.
  unfold printProgress.
  rewrite <- (printProgress_loop_None stop n 0 1 7 []).
  destruct (printProgress_loop n stop 0 1 7 []) as [[out k]|]; cbn.
  - split; discriminate.
  - split; reflexivity.
Qed.

(** ** XlnetEmbeddings, continued *)

(** The constructor succeeds on every object the superclass leaves and
    touches nothing but the four defaults. *)
Lemma __init___sets_defaults (base : Params) :
  exists self,
    __init__ base = Ok self
    /\ getDefault self batchSize = Some (VInt 8)
    /\ getDefault self dimension = Some (VInt 768)
    /\ getDefault self maxSentenceLength = Some (VInt 128)
    /\ getDefault self caseSensitive = Some (VBool true)
    /\ _paramMap self = _paramMap base.
Proof.
  eexists. split; [reflexivity|]. unfold getDefault. cbn.
  repeat split;
    rewrite ?lookup_insert_eq, ?lookup_insert_ne by discriminate;
    try reflexivity; apply lookup_insert_eq.
Qed.

(** X9. [XlnetEmbeddings.pretrained] never returns a model: whatever
    name, language and remote location are given or defaulted, the call
    ends in the [TypeError] of [_DownloadModel]'s missing [validator]
    with nothing sent to the remote side. *)
Theorem pretrained_never_returns
    (jvm : string -> list value -> result handle)
    (super_init : value -> handle -> Params)
    (name lang : option string) (remote_loc : option value) :
  snd (pretrained jvm super_init name lang remote_loc)
  = Raise (TypeError_missing "_DownloadModel.__init__" ["validator"])
  /\ count is_Remote (fst (pretrained jvm super_init name lang remote_loc)) = 0%nat.
Proof. split; reflexivity. Qed.

(** X10. [XlnetEmbeddings.loadSavedModel] makes one remote call,
    [XlnetEmbeddings.loadSavedModel(folder, jsparkSession)]: if that call
    raises, so does [loadSavedModel]; if it returns a handle, the result
    is the object built around that handle under the default class name,
    carrying the four defaults and no explicit value of its own. *)
Theorem loadSavedModel_defaults
    (jvm : string -> list value -> result handle)
    (super_init : value -> handle -> Params)
    (folder : string) (jsparkSession : handle) :
  let call :=
    jvm "com.johnsnowlabs.nlp.embeddings.XlnetEmbeddings.loadSavedModel"
      [VStr folder; VJava jsparkSession] in
  (forall e, call = Raise e ->
     loadSavedModel jvm super_init folder jsparkSession = Raise e)
  /\ (forall jModel, call = Ok jModel ->
        exists self,
          loadSavedModel jvm super_init folder jsparkSession = Ok self
          /\ getDefault self batchSize = Some (VInt 8)
          /\ getDefault self dimension = Some (VInt 768)
          /\ getDefault self maxSentenceLength = Some (VInt 128)
          /\ getDefault self caseSensitive = Some (VBool true)
          /\ _paramMap self
             = _paramMap
                 (super_init (VStr "com.johnsnowlabs.nlp.embeddings.XlnetEmbeddings")
                    jModel)).
Proof.
  cbn zeta. unfold loadSavedModel, apply. cbn.
  split.
  - intros e ->. reflexivity.
  - intros jModel ->. cbn. apply __init___sets_defaults.
Qed.

Lemma integral_is_integer (v : value) :
  integral v -> _is_integer v = Some true.
Proof.
  destruct v; cbn; try contradiction.
  - intros H. rewrite (int_fits_float_lt z H). reflexivity.
  - intros ->. reflexivity.
Qed.

Lemma not_integral_is_integer (v : value) :
  not_integral v -> _is_integer v = Some false.
Proof. destruct v; cbn; try contradiction; try reflexivity. intros ->. reflexivity. Qed.

Lemma all_integer_Forall (l : list value) :
  Forall integral l -> all_integer l = Some true.
Proof.
  induction 1 as [|v l Hv _ IH]; [reflexivity|].
  cbn [all_integer]. rewrite (integral_is_integer v Hv). exact IH.
Qed.

Lemma all_integer_app (pre post : list value) :
  Forall integral pre -> all_integer (pre ++ post) = all_integer post.
Proof.
  induction 1 as [|v l Hv _ IH]; [reflexivity|].
  cbn [app all_integer]. rewrite (integral_is_integer v Hv). exact IH.
Qed.

Lemma _set_configProtoBytes (o : Params) (l : list value) :
  Forall integral l ->
  _set [("configProtoBytes", VList l)] o
  = Ok (mkParams (<["configProtoBytes" := VList (List.map to_int l)]> (_paramMap o))
          (_defaultParamMap o)).
Proof.
  intros Hl. cbn -[all_integer]. rewrite (all_integer_Forall l Hl). reflexivity.
Qed.

(** X11. [setConfigProtoBytes(b)] on a list [b].  When every element is
    an int that [float] accepts or a float with an integral value, it
    sets [configProtoBytes] to the list of their int values, leaves the
    four other parameters, all defaults and every other object unchanged,
    and returns the reference it was called on.  Otherwise the first
    element that is not of that kind decides: a larger int raises
    [OverflowError], anything else raises [TypeError]. *)
Theorem setConfigProtoBytes_frame (st : store) (self : ref) (o : Params) :
  st !! self = Some o ->
  (forall b, Forall integral b ->
     exists o',
       setConfigProtoBytes self (VList b) st = Ok (self, <[self := o']> st)
       /\ getOrDefault o' configProtoBytes = Some (VList (List.map to_int b))
       /\ (forall p, p ∈ [batchSize; dimension; maxSentenceLength; caseSensitive] ->
             _paramMap o' !! name p = _paramMap o !! name p
             /\ getOrDefault o' p = getOrDefault o p)
       /\ _defaultParamMap o' = _defaultParamMap o
       /\ (forall r, r <> self -> <[self := o']> st !! r = st !! r))
  /\ (forall pre v post, Forall integral pre -> not_integral v ->
        setConfigProtoBytes self (VList (pre ++ v :: post)) st
        = Raise (TypeError_convert "configProtoBytes"))
  /\ (forall pre z post, Forall integral pre -> 2 ^ 1024 - 2 ^ 970 <= Z.abs z ->
        setConfigProtoBytes self (VList (pre ++ VInt z :: post)) st
        = Raise OverflowError).
Proof.
  intros Hself. split; [|split].
  - intros b Hb.
    exists (mkParams (<["configProtoBytes" := VList (List.map to_int b)]> (_paramMap o))
              (_defaultParamMap o)).
    split.
    { unfold setConfigProtoBytes, update. rewrite Hself.
      rewrite (_set_configProtoBytes o b Hb). reflexivity. }
    split; [unfold getOrDefault; cbn; rewrite lookup_insert_eq; reflexivity|].
    split.
    { intros p Hp.
      assert (Hne : "configProtoBytes" <> name p).
      { rewrite !elem_of_cons in Hp.
        destruct Hp as [->|[->|[->|[->|Hp]]]]; try discriminate.
        apply elem_of_nil in Hp. contradiction. }
      split; [cbn; apply lookup_insert_ne; exact Hne|].
      apply getOrDefault_insert_ne. exact Hne. }
    split; [reflexivity|].
    intros r Hr. apply lookup_insert_ne. congruence.
  - intros pre v post Hpre Hv.
    unfold setConfigProtoBytes, update. rewrite Hself.
    cbn -[all_integer]. rewrite (all_integer_app pre _ Hpre).
    cbn [all_integer]. rewrite (not_integral_is_integer v Hv). reflexivity.
  - intros pre z post Hpre Hz.
    unfold setConfigProtoBytes, update. rewrite Hself.
    cbn -[all_integer]. rewrite (all_integer_app pre _ Hpre).
    cbn [all_integer _is_integer]. unfold int_fits_float, float_halfway.
    destruct (Z.ltb_spec (Z.abs z) (2 ^ 1024 - 2 ^ 970)) as [Hlt|_]; [lia|].
    reflexivity.
Qed.

Lemma setConfigProtoBytes_frame_witness :
  exists o',
    setConfigProtoBytes 1%positive
      (VList [VInt 8; VFloat (S754_finite false 3 0)]) {[1%positive := fresh_model]}
    = Ok (1%positive, <[1%positive := o']> {[1%positive := fresh_model]})
    /\ getOrDefault o' configProtoBytes = Some (VList [VInt 8; VInt 3]).
Proof.
  assert (Hself : ({[1%positive := fresh_model]} : store) !! 1%positive
                  = Some fresh_model) by reflexivity.
  destruct (setConfigProtoBytes_frame {[1%positive := fresh_model]} 1%positive
              fresh_model Hself) as [Hok _].
  destruct (Hok [VInt 8; VFloat (S754_finite false 3 0)]) as (o' & Hcall & Hget & _).
  - repeat constructor.
  - exists o'. split; assumption.
Defined.

(** X12. The two setters commute on values they accept: for an int [v]
    that [float] accepts and a list [b] of such ints and integral floats,
    setting [maxSentenceLength] and then [configProtoBytes] leaves the
    same store and returns the same reference as setting them in the
    other order. *)
Theorem setters_commute (st : store) (self : ref) (o : Params)
    (v : Z) (b : list value) :
  st !! self = Some o ->
  Z.abs v < 2 ^ 1024 - 2 ^ 970 ->
  Forall integral b ->
  ('(r, st') ← setMaxSentenceLength self (VInt v) st;
   setConfigProtoBytes r (VList b) st')
  = ('(r, st') ← setConfigProtoBytes self (VList b) st;
     setMaxSentenceLength r (VInt v) st')
  /\ ('(r, st') ← setMaxSentenceLength self (VInt v) st;
      setConfigProtoBytes r (VList b) st')
     = Ok (self,
           <[self := mkParams
                       (<["configProtoBytes" := VList (List.map to_int b)]>
                          (<["maxSentenceLength" := VInt v]> (_paramMap o)))
                       (_defaultParamMap o)]> st).
Proof.
  intros Hself Hv Hb. apply int_fits_float_lt in Hv.
  unfold setMaxSentenceLength, setConfigProtoBytes, update.
  rewrite Hself, (_set_maxSentenceLength o v Hv), (_set_configProtoBytes o b Hb).
  cbn [mbind result_bind]. rewrite !lookup_insert_eq.
  rewrite (_set_maxSentenceLength _ v Hv), (_set_configProtoBytes _ b Hb).
  cbn [mbind result_bind _paramMap _defaultParamMap].
  rewrite !insert_insert_eq.
  rewrite (insert_insert_ne (_paramMap o) "maxSentenceLength" "configProtoBytes")
    by discriminate.
  split; reflexivity.
Qed.

Lemma setters_commute_witness :
  ('(r, st') ← setMaxSentenceLength 1%positive (VInt 64) {[1%positive := fresh_model]};
   setConfigProtoBytes r (VList [VInt 8]) st')
  = ('(r, st') ← setConfigProtoBytes 1%positive (VList [VInt 8])
                   {[1%positive := fresh_model]};
     setMaxSentenceLength r (VInt 64) st').
Proof.
  apply (setters_commute {[1%positive := fresh_model]} 1%positive fresh_model
           64 [VInt 8]).
  - reflexivity.
  - vm_compute. reflexivity.
  - repeat constructor.
Defined.

(** X13. An explicit value overrides the default without replacing it:
    on an object fresh from the constructor, after
    [setMaxSentenceLength(v)] with an int [v] that [float] accepts the
    parameter reads [v] while its default is still 128, and [batchSize],
    [dimension] and [caseSensitive] still read their defaults as long as
    the superclass set no value for them. *)
Theorem set_overrides_default (base self0 : Params) (st : store) (r : ref) (v : Z) :
  __init__ base = Ok self0 ->
  st !! r = Some self0 ->
  Z.abs v < 2 ^ 1024 - 2 ^ 970 ->
  exists o',
    setMaxSentenceLength r (VInt v) st = Ok (r, <[r := o']> st)
    /\ getOrDefault o' maxSentenceLength = Some (VInt v)
    /\ getDefault o' maxSentenceLength = Some (VInt 128)
    /\ (_paramMap base !! "batchSize" = None ->
        getOrDefault o' batchSize = Some (VInt 8))
    /\ (_paramMap base !! "dimension" = None ->
        getOrDefault o' dimension = Some (VInt 768))
    /\ (_paramMap base !! "caseSensitive" = None ->
        getOrDefault o' caseSensitive = Some (VBool true)).
Proof.
  intros Hinit Hr Hv. apply int_fits_float_lt in Hv.
  destruct (__init___sets_defaults base)
    as (self & Hself & Hb & Hd & Hm & Hc & Hmap).
  rewrite Hinit in Hself. injection Hself as <-.
  exists (mkParams (<["maxSentenceLength" := VInt v]> (_paramMap self0))
            (_defaultParamMap self0)).
  split.
  { unfold setMaxSentenceLength, update.
    rewrite Hr, (_set_maxSentenceLength self0 v Hv). reflexivity. }
  unfold getOrDefault, getDefault in *. cbn.
  rewrite lookup_insert_eq.
  rewrite !lookup_insert_ne by discriminate. rewrite Hmap.
  repeat split; try assumption; intros ->; assumption.
Qed.

Lemma set_overrides_default_witness :
  exists o',
    setMaxSentenceLength 1%positive (VInt 512)
      {[1%positive := mkParams ∅
          (<["caseSensitive" := VBool true]>
             (<["maxSentenceLength" := VInt 128]>
                (<["dimension" := VInt 768]>
                   (<["batchSize" := VInt 8]> (_defaultParamMap fresh_model)))))]}
    = Ok (1%positive,
          <[1%positive := o']>
            {[1%positive := mkParams ∅
                (<["caseSensitive" := VBool true]>
                   (<["maxSentenceLength" := VInt 128]>
                      (<["dimension" := VInt 768]>
                         (<["batchSize" := VInt 8]> (_defaultParamMap fresh_model)))))]})
    /\ getOrDefault o' maxSentenceLength = Some (VInt 512)
    /\ getDefault o' maxSentenceLength = Some (VInt 128).
Proof.
  destruct (set_overrides_default fresh_model
              (mkParams ∅
                 (<["caseSensitive" := VBool true]>
                    (<["maxSentenceLength" := VInt 128]>
                       (<["dimension" := VInt 768]>
                          (<["batchSize" := VInt 8]> (_defaultParamMap fresh_model))))))
              {[1%positive := mkParams ∅
                  (<["caseSensitive" := VBool true]>
                     (<["maxSentenceLength" := VInt 128]>
                        (<["dimension" := VInt 768]>
                           (<["batchSize" := VInt 8]> (_defaultParamMap fresh_model)))))]}
              1%positive 512)
    as (o' & Hcall & Hget & Hdef & _).
  - vm_compute. reflexivity.
  - apply lookup_singleton_eq.
  - vm_compute. reflexivity.
  - exists o'. repeat split; assumption.
Defined.

(** X14. What [setMaxSentenceLength] does with each kind of value.
    [None] is stored as an explicit value, which hides the default; an int
    that [float] accepts is stored as it is; a float with an integral
    value is stored as that int; a larger int raises [OverflowError]; a
    float that is not integral, a boolean, a string, a list and a remote
    handle raise [TypeError] for the parameter. *)
Theorem setMaxSentenceLength_values (st : store) (self : ref) (o : Params)
    (v : value) :
  st !! self = Some o ->
  let stored (x : value) :=
    setMaxSentenceLength self v st
    = Ok (self,
          <[self := mkParams (<["maxSentenceLength" := x]> (_paramMap o))
                      (_defaultParamMap o)]> st)
    /\ getOrDefault
         (mkParams (<["maxSentenceLength" := x]> (_paramMap o))
            (_defaultParamMap o)) maxSentenceLength = Some x in
  match v with
  | VNone => stored VNone
  | VInt z =>
      if Z.abs z <? 2 ^ 1024 - 2 ^ 970
      then stored (VInt z)
      else setMaxSentenceLength self v st = Raise OverflowError
  | VFloat (S754_zero _) => stored (VInt 0)
  | VFloat (S754_finite s m e) =>
      if (0 <=? e) || (Z.pos m mod 2 ^ (- e) =? 0)
      then stored (VInt (float_to_int (S754_finite s m e)))
      else setMaxSentenceLength self v st
           = Raise (TypeError_convert "maxSentenceLength")
  | _ =>
      setMaxSentenceLength self v st
      = Raise (TypeError_convert "maxSentenceLength")
  end.
Proof.
  intros Hself stored. subst stored. unfold setMaxSentenceLength, update.
  rewrite Hself.
  assert (Hget : forall x,
    getOrDefault
      (mkParams (<["maxSentenceLength" := x]> (_paramMap o)) (_defaultParamMap o))
      maxSentenceLength = Some x).
  { intros x. unfold getOrDefault. cbn. rewrite lookup_insert_eq. reflexivity. }
  destruct v as [|b|z|f|s|l|h]; try reflexivity.
  - split; [reflexivity | apply Hget].
  - cbn -[Z.pow float_halfway]. unfold int_fits_float, float_halfway.
    destruct (Z.abs z <? 2 ^ 1024 - 2 ^ 970); [|reflexivity].
    split; [reflexivity | apply Hget].
  - destruct f as [sg|sg| |sg m e]; try reflexivity.
    + split; [reflexivity | apply Hget].
    + cbn -[Z.pow float_to_int].
      destruct ((0 <=? e) || (Z.pos m mod 2 ^ (- e) =? 0)); [|reflexivity].
      split; [reflexivity | apply Hget].
Qed.

Lemma setMaxSentenceLength_values_witness :
  setMaxSentenceLength 1%positive (VStr "128") {[1%positive := fresh_model]}
  = Raise (TypeError_convert "maxSentenceLength").
Proof.
  assert (Hself : ({[1%positive := fresh_model]} : store) !! 1%positive
                  = Some fresh_model) by reflexivity.
  exact (setMaxSentenceLength_values {[1%positive := fresh_model]} 1%positive
           fresh_model (VStr "128") Hself).
Defined.

(** The float [128.0] is taken for the int 128; [2 ** 1024] is not taken
    at all. *)
Example setMaxSentenceLength_float :
  setMaxSentenceLength 1%positive (VFloat (S754_finite false 1 7))
    {[1%positive := fresh_model]}
  = Ok (1%positive,
        <[1%positive := mkParams (<["maxSentenceLength" := VInt 128]> ∅)
                          (_defaultParamMap fresh_model)]>
          {[1%positive := fresh_model]}).
Proof. vm_compute. reflexivity. Qed.

(** ** RNNLM: parse and parse_row, continued *)

(** X15. [parse_row] pairs every element of a row with its successor:
    both sequences have one element less than the row, position [k] of
    the first is position [k] of the row and position [k] of the second
    is position [k + 1]; a non-empty row is the first sequence followed
    by its last element, and its first element followed by the second
    sequence. *)
Theorem parse_row_pairs {A} (row : list A) :
  let '(input_seq, output_seq) := parse_row row in
  length input_seq = (length row - 1)%nat
  /\ length output_seq = (length row - 1)%nat
  /\ (forall k, (k < length row - 1)%nat ->
        input_seq !! k = row !! k /\ output_seq !! k = row !! S k)
  /\ (forall x, last row = Some x -> row = input_seq ++ [x])
  /\ (forall x, head row = Some x -> row = x :: output_seq).
Proof.
  unfold parse_row.
  split; [apply slice_to_last_length|].
  split; [apply slice_from_1_length|].
  split.
  { intros k Hk. split; [apply slice_to_last_lookup; exact Hk|].
    apply slice_from_1_lookup. }
  split.
  - intros x Hx. unfold slice_to_last.
    destruct (decide (row = [])) as [->|Hne]; [discriminate|].
    destruct (exists_last Hne) as (l & y & ->).
    rewrite last_snoc in Hx. injection Hx as ->.
    rewrite length_app. cbn. replace (length l + 1 - 1)%nat with (length l) by lia.
    rewrite take_app_length. reflexivity.
  - intros x Hx. destruct row as [|y row]; [discriminate|].
    injection Hx as ->. reflexivity.
Qed.

Section ParseMore.
Variable string_split : string -> list string.
Variable string_to_number : string -> option Z.

(** Converting a vector either gives the numbers of all its tokens or
    fails on a token that is no number. *)
Lemma to_numbers_cases (ts : list string) :
  (exists zs, to_numbers string_to_number ts = Ok zs
              /\ Forall2 (fun t z => string_to_number t = Some z) ts zs)
  \/ (to_numbers string_to_number ts = Raise InvalidArgumentError
      /\ exists t, t ∈ ts /\ string_to_number t = None).
Proof.
  induction ts as [|t ts IH].
  - left. exists []. split; [reflexivity | constructor].
  - cbn [to_numbers]. destruct (string_to_number t) as [z|] eqn:Ht.
    + destruct IH as [(zs & -> & Hzs)|(-> & t' & Hin & Hnone)].
      * left. exists (z :: zs). split; [reflexivity|]. constructor; assumption.
      * right. split; [reflexivity|]. exists t'. split; [|assumption].
        apply elem_of_cons. right. assumption.
    + right. split; [reflexivity|]. exists t. split; [|assumption].
      apply elem_of_cons. left. reflexivity.
Qed.

(** With two tokens or more, every token is in one of the two slices. *)
Lemma slices_cover (ts : list string) (t : string) :
  (2 <= length ts)%nat -> t ∈ ts ->
  t ∈ slice_to_last ts \/ t ∈ slice_from_1 ts.
Proof.
  intros Hlen Hin. destruct ts as [|a ts]; [inversion Hin|].
  apply elem_of_cons in Hin as [->|Hin].
  - left. unfold slice_to_last. cbn in *.
    destruct ts; [cbn in Hlen; lia|]. cbn. apply elem_of_cons. left. reflexivity.
  - right. exact Hin.
Qed.

Lemma slices_within (ts : list string) (t : string) :
  t ∈ slice_to_last ts \/ t ∈ slice_from_1 ts -> t ∈ ts.
Proof.
  unfold slice_to_last, slice_from_1. intros [H|H].
  - apply elem_of_take in H as (i & H & _).
    apply list_elem_of_lookup. exists i. exact H.
  - apply list_elem_of_lookup in H as (i & H). rewrite lookup_drop in H.
    apply list_elem_of_lookup. eexists. exact H.
Qed.
End ParseMore.

(** X16. On a line whose tokens all convert, [parse] is [parse_row]
    applied to the converted row: splitting and converting first and
    slicing afterwards gives what [parse] gives by slicing first. *)
Theorem parse_is_parse_row
    (string_split : string -> list string)
    (string_to_number : string -> option Z)
    (line : string) (zs : list Z) :
  Forall2 (fun t z => string_to_number t = Some z) (string_split line) zs ->
  to_numbers string_to_number (string_split line) = Ok zs
  /\ parse string_split string_to_number line = Ok (parse_row zs).
Proof.
  intros Hnum. split; [apply to_numbers_Forall2; exact Hnum|].
  pose proof (Forall2_length _ _ _ Hnum) as Hlen.
  unfold parse, parse_row.
  rewrite (to_numbers_Forall2 _ (slice_to_last (string_split line)) (slice_to_last zs)).
  2:{ unfold slice_to_last. rewrite Hlen. apply Forall2_take. exact Hnum. }
  cbn [mbind result_bind].
  rewrite (to_numbers_Forall2 _ (slice_from_1 (string_split line)) (slice_from_1 zs)).
  2:{ unfold slice_from_1. apply Forall2_drop. exact Hnum. }
  reflexivity.
Qed.

Lemma parse_is_parse_row_witness :
  to_numbers tf_string_to_number (tf_string_split "7 -3 12") = Ok [7; -3; 12]
  /\ parse tf_string_split tf_string_to_number "7 -3 12"
     = Ok (parse_row [7; -3; 12]).
Proof.
  apply (parse_is_parse_row tf_string_split tf_string_to_number "7 -3 12"
           [7; -3; 12]).
  repeat constructor.
Defined.

(** X17. When [parse] fails.  A line of at most one token always gives
    two empty sequences, whatever the token is; a line of two tokens or
    more gives a pair exactly when every token converts, and raises
    [InvalidArgumentError] exactly when some token does not. *)
Theorem parse_fails_iff
    (string_split : string -> list string)
    (string_to_number : string -> option Z)
    (line : string) :
  let ts := string_split line in
  ((length ts <= 1)%nat ->
     parse string_split string_to_number line = Ok ([], []))
  /\ ((2 <= length ts)%nat ->
        (parse string_split string_to_number line = Raise InvalidArgumentError
         <-> exists t, t ∈ ts /\ string_to_number t = None)
        /\ ((exists p, parse string_split string_to_number line = Ok p)
            <-> forall t, t ∈ ts -> is_Some (string_to_number t))).
Proof.
  cbn zeta. unfold parse. split.
  - intros Hlen. destruct (string_split line) as [|t [|t' ts]]; cbn in *;
      [reflexivity | reflexivity | lia].
  - intros Hlen.
    assert (Hraise :
      (input_seq ← to_numbers string_to_number (slice_to_last (string_split line));
       output_seq ← to_numbers string_to_number (slice_from_1 (string_split line));
       Ok (input_seq, output_seq)) = Raise InvalidArgumentError
      <-> exists t, t ∈ string_split line /\ string_to_number t = None).
    { destruct (to_numbers_cases string_to_number (slice_to_last (string_split line)))
        as [(zs & Hzs & Hall)|(Hfail & t & Hin & Hnone)].
      - rewrite Hzs. cbn [mbind result_bind].
        destruct (to_numbers_cases string_to_number (slice_from_1 (string_split line)))
          as [(zs' & Hzs' & Hall')|(Hfail & t & Hin & Hnone)].
        + rewrite Hzs'. cbn. split; [discriminate|].
          intros (t & Hin & Hnone).
          destruct (slices_cover _ t Hlen Hin) as [H|H].
          * apply list_elem_of_lookup in H as (i & H).
            destruct (Forall2_lookup_l _ _ _ i t Hall H) as (z & _ & Hz).
            congruence.
          * apply list_elem_of_lookup in H as (i & H).
            destruct (Forall2_lookup_l _ _ _ i t Hall' H) as (z & _ & Hz).
            congruence.
        + rewrite Hfail. cbn. split; [|reflexivity]. intros _.
          exists t. split; [|exact Hnone]. apply slices_within. right. exact Hin.
      - rewrite Hfail. cbn. split; [|reflexivity]. intros _.
        exists t. split; [|exact Hnone]. apply slices_within. left. exact Hin. }
    split; [exact Hraise|].
    split.
    + intros [p Hp] t Hin. destruct (string_to_number t) eqn:Ht; [eauto|].
      exfalso. assert (Hex : exists t, t ∈ string_split line /\ string_to_number t = None)
        by eauto.
      apply Hraise in Hex. rewrite Hex in Hp. discriminate.
    + intros Hall.
      destruct (to_numbers_cases string_to_number (slice_to_last (string_split line)))
        as [(zs & Hzs & _)|(_ & t & Hin & Hnone)].
      * rewrite Hzs. cbn [mbind result_bind].
        destruct (to_numbers_cases string_to_number (slice_from_1 (string_split line)))
          as [(zs' & Hzs' & _)|(_ & t & Hin & Hnone)].
        -- rewrite Hzs'. eexists. reflexivity.
        -- exfalso. destruct (Hall t) as [z Hz]; [|congruence].
           apply slices_within. right. exact Hin.
      * exfalso. destruct (Hall t) as [z Hz]; [|congruence].
        apply slices_within. left. exact Hin.
Qed.

(** A single token is never converted. *)
Example parse_single_token :
  parse tf_string_split tf_string_to_number "hello" = Ok ([], []).
Proof. reflexivity. Qed.

(** ** RNNLM: sequence lengths *)

Lemma sum_list_app (l1 l2 : list Z) :
  sum_list (l1 ++ l2) = sum_list l1 + sum_list l2.
Proof.
  unfold sum_list. induction l1 as [|x l1 IH]; cbn; [reflexivity|].
  rewrite IH. lia.
Qed.

Lemma sum_sgn_padding (k : nat) : sum_list (List.map Z.sgn (repeat 0 k)) = 0.
Proof. induction k as [|k IH]; cbn; [reflexivity | exact IH]. Qed.

Lemma sum_sgn_pad_to (m : nat) (row : list Z) :
  sum_list (List.map Z.sgn (pad_to m row)) = sum_list (List.map Z.sgn row).
Proof.
  unfold pad_to. rewrite List.map_app, sum_list_app, sum_sgn_padding. lia.
Qed.

Lemma sum_sgn_positive (row : list Z) :
  (forall id, id ∈ row -> 0 < id) ->
  sum_list (List.map Z.sgn row) = Z.of_nat (length row).
Proof.
  induction row as [|x row IH]; intros Hpos; [reflexivity|].
  cbn [List.map sum_list fold_right length].
  change (fold_right Z.add 0 (List.map Z.sgn row))
    with (sum_list (List.map Z.sgn row)).
  rewrite IH by (intros id Hid; apply Hpos, elem_of_cons; right; exact Hid).
  assert (0 < x) by (apply Hpos, elem_of_cons; left; reflexivity).
  rewrite Z.sgn_pos by assumption. lia.
Qed.

Lemma pad_to_length (m : nat) (row : list Z) :
  (length row <= m)%nat -> length (pad_to m row) = m.
Proof. intros H. unfold pad_to. rewrite length_app, repeat_length. lia. Qed.

Lemma longest_bound (rows : list (list Z)) (row : list Z) :
  row ∈ rows -> (length row <= longest rows)%nat.
Proof.
  unfold longest. induction rows as [|r rows IH]; intros Hin; [inversion Hin|].
  cbn. apply elem_of_cons in Hin as [->|Hin]; [lia|].
  specialize (IH Hin). lia.
Qed.

(** X18. Sequence lengths are read off the zero padding.  Padding a
    batch makes all rows as long as the longest and changes neither the
    per-row lengths [get_length] computes nor [valid_words]; when every
    word id is positive, the computed length of a padded row is the
    length the row had before padding, and [valid_words] is the number of
    words in the batch. *)
Theorem batch_length_padded (rows : list (list Z)) :
  (forall row, row ∈ padded_batch rows -> length row = longest rows)
  /\ batch_length (padded_batch rows) = batch_length rows
  /\ valid_words (padded_batch rows) = valid_words rows
  /\ ((forall row id, row ∈ rows -> id ∈ row -> 0 < id) ->
      batch_length (padded_batch rows)
      = List.map (fun row => Z.of_nat (length row)) rows
      /\ valid_words (padded_batch rows) = Z.of_nat (length (concat rows))).
Proof.
  assert (Hlen : batch_length (padded_batch rows) = batch_length rows).
  { unfold batch_length, get_length, reduce_sum_1, non_zero_weights, tf_sign,
      padded_batch.
    rewrite !List.map_map. apply List.map_ext. intros row. apply sum_sgn_pad_to. }
  assert (Hwords : forall b, valid_words b = sum_list (batch_length b)).
  { reflexivity. }
  split.
  { intros row Hin. unfold padded_batch in Hin.
    apply list_elem_of_In, List.in_map_iff in Hin as (r & <- & Hr).
    apply pad_to_length, longest_bound, list_elem_of_In, Hr. }
  split; [exact Hlen|].
  split; [rewrite !Hwords, Hlen; reflexivity|].
  intros Hpos.
  assert (Hrows : batch_length rows = List.map (fun row => Z.of_nat (length row)) rows).
  { unfold batch_length, get_length, reduce_sum_1, non_zero_weights, tf_sign.
    rewrite List.map_map. apply List.map_ext_in. intros row Hin.
    apply sum_sgn_positive. intros id Hid.
    apply (Hpos row id); [apply list_elem_of_In; exact Hin | exact Hid]. }
  split; [rewrite Hlen; exact Hrows|].
  rewrite Hwords, Hlen, Hrows. clear.
  induction rows as [|row rows IH]; [reflexivity|].
  cbn [List.map concat sum_list fold_right].
  change (fold_right Z.add 0 (List.map (fun row => Z.of_nat (length row)) rows))
    with (sum_list (List.map (fun row => Z.of_nat (length row)) rows)).
  rewrite IH, length_app. lia.
Qed.

(** A word id of zero inside a sentence is taken for padding. *)
Example batch_length_zero_id :
  batch_length (padded_batch [[5; 0; 7]; [3]]) = [2; 1].
Proof. reflexivity. Qed.

(** ** RNNLM: batch_train, continued *)

Section TrainMore.
Context {F : Type}.
Variable zero inf : F.
Variable add : F -> F -> F.
Variable np_sum : list F -> F.
Variable div : F -> Z -> F.
Variable math_exp : F -> result F.
Variable lt : F -> F -> bool.
Variable train_data : nat -> list (train_fetch F).
Variable valid_data : nat -> list (valid_fetch F).
Variable num_epochs : Z.
Variable check_point_step : Z.

Local Abbreviation train_pass :=
  (train_pass zero add np_sum div math_exp check_point_step).
Local Abbreviation valid_pass := (valid_pass add np_sum).
Local Abbreviation iteration :=
  (iteration zero add np_sum div math_exp lt train_data valid_data
     num_epochs check_point_step).

(** X19. A training pass that returns has fetched every batch exactly
    once and has printed a perplexity report at exactly the batches
    whose global step is a multiple of [check_point_step]. *)
Theorem train_pass_counts batches :
  forall train_loss train_valid_words,
    snd (train_pass batches train_loss train_valid_words) = Ok tt ->
    count is_TrainBatch (fst (train_pass batches train_loss train_valid_words))
    = length batches
    /\ count is_PrintTrainPPL
         (fst (train_pass batches train_loss train_valid_words))
       = length (List.filter (due check_point_step) batches).
Proof.
  unfold count.
  induction batches as [|b batches IH]; intros l w Hok; [split; reflexivity|].
  cbn [RnnLm.train_pass List.filter] in *. unfold due at 1.
  destruct (np_mod (t_global_step b) check_point_step =? 0).
  - cbn in Hok |- *.
    destruct (math_exp (div (add l (np_sum (t_loss b))) (w + t_valid_words b)))
      as [ppl|e]; [|discriminate].
    cbn in Hok |- *. specialize (IH zero 0).
    destruct (train_pass batches zero 0) as [t r]. cbn in Hok |- *.
    destruct (IH Hok) as [IH1 IH2]. cbn in IH1, IH2. rewrite IH1, IH2.
    split; reflexivity.
  - cbn in Hok |- *. specialize (IH (add l (np_sum (t_loss b))) (w + t_valid_words b)).
    destruct (train_pass batches _ _) as [t r]. cbn in Hok |- *.
    destruct (IH Hok) as [IH1 IH2]. cbn in IH1, IH2. rewrite IH1, IH2.
    split; reflexivity.
Qed.
Local Abbreviation batch_train :=
  (batch_train zero inf add np_sum div math_exp lt train_data valid_data
     num_epochs check_point_step).

(** X20. With [num_epochs <= 0], [batch_train] returns at once: no
    training pass is begun, nothing is printed or saved. *)
Theorem batch_train_no_epochs (fuel : nat) :
  num_epochs <= 0 ->
  batch_train fuel = Some ([], Ok (Locals inf 5 0)).
Proof.
  intros Hn. unfold RnnLm.batch_train.
  destruct fuel; cbn [epochs epoch];
    (destruct (Z.ltb_spec 0 num_epochs) as [Habs|_]; [lia | reflexivity]).
Qed.

(** What one iteration does to the checkpoint and to the local
    variables when it returns. *)
Lemma iteration_saves pass st t st' :
  iteration pass st = (t, Ok st') ->
  epoch st' = num_epochs
  /\ ((count is_SaveBest t = 1%nat /\ patience st' = 5
       /\ lt (best_score st') (best_score st) = true)
      \/ (count is_SaveBest t = 0%nat /\ patience st' = patience st - 1
          /\ best_score st' = best_score st)).
Proof.
  unfold RnnLm.iteration, count.
  pose proof (train_pass_quiet zero add np_sum div math_exp check_point_step
                is_SaveBest eq_refl eq_refl (fun _ _ => eq_refl)
                (fun _ => eq_refl) (train_data pass) zero 0) as Ht.
  unfold quiet in Ht.
  destruct (train_pass (train_data pass) zero 0) as [t1 [[]|e]];
    cbn [fst] in Ht; [|cbn; discriminate].
  destruct (valid_pass_runs add np_sum (valid_data pass) zero 0 false)
    as (l & w & f & Hv & _).
  cbn. rewrite Hv. cbn.
  pose proof (filter_repeat_ValidBatch (F:=F) is_SaveBest
                (length (valid_data pass)) eq_refl) as Hv'.
  destruct f; cbn; [|discriminate].
  destruct (math_exp (div l w)) as [dev_ppl|e]; cbn; [|discriminate].
  destruct (lt dev_ppl (best_score st)) eqn:Hlt; cbn; intros [= <- <-]; cbn;
    (split; [reflexivity|]);
    rewrite !List.filter_app, Ht; cbn; rewrite !List.filter_app, Hv'; cbn.
  - left. auto.
  - right. auto.
Qed.

(** X21. With [num_epochs >= 1], a call of [batch_train] that returns
    has saved the checkpoint at most once: either the validation perplexity was below infinity,
    the model was saved once and [patience] is 5, or nothing was saved,
    [patience] is 4 and [best_score] is still infinity.  Either way
    [epoch] has been set to [num_epochs]. *)
Theorem batch_train_saves_at_most_once (fuel : nat) t st :
  1 <= num_epochs ->
  batch_train (S fuel) = Some (t, Ok st) ->
  epoch st = num_epochs
  /\ ((count is_SaveBest t = 1%nat /\ patience st = 5
       /\ lt (best_score st) inf = true)
      \/ (count is_SaveBest t = 0%nat /\ patience st = 4
          /\ best_score st = inf)).
Proof.
  intros Hn. unfold RnnLm.batch_train. cbn [epochs epoch].
  destruct (Z.ltb_spec 0 num_epochs) as [_|Habs]; [|lia].
  destruct (iteration 0%nat (Locals inf 5 0)) as [t0 [st0|e]] eqn:Hit;
    [|intros [= _ H]; discriminate].
  destruct (iteration_saves _ _ _ _ Hit) as [Hep Hsave].
  rewrite (epochs_done zero add np_sum div math_exp lt train_data valid_data
             num_epochs check_point_step fuel 1 st0 Hep).
  cbn. rewrite app_nil_r. intros [= <- <-].
  split; [exact Hep|]. exact Hsave.
Qed.

(** X22. With [num_epochs >= 1] and an empty validation file
    [batch_train] never returns: the first iteration ends in an exception before any perplexity is printed
    or any checkpoint saved, and when the training pass went through, the
    exception is the [ZeroDivisionError] of dividing the untouched
    accumulators. *)
Theorem batch_train_empty_validation_fails (fuel : nat) :
  1 <= num_epochs ->
  valid_data 0%nat = [] ->
  exists t e,
    batch_train (S fuel) = Some (t, Raise e)
    /\ count is_SaveBest t = 0%nat
    /\ validated t = 0%nat
    /\ (snd (train_pass (train_data 0%nat) zero 0) = Ok tt ->
        e = ZeroDivisionError).
Proof.
  intros Hn Hempty. unfold RnnLm.batch_train. cbn [epochs epoch].
  destruct (Z.ltb_spec 0 num_epochs) as [_|Habs]; [|lia].
  unfold RnnLm.iteration, count, validated. rewrite Hempty.
  pose proof (train_pass_quiet zero add np_sum div math_exp check_point_step
                is_SaveBest eq_refl eq_refl (fun _ _ => eq_refl)
                (fun _ => eq_refl) (train_data 0%nat) zero 0) as Ht.
  pose proof (train_pass_quiet zero add np_sum div math_exp check_point_step
                is_PrintValidPPL eq_refl eq_refl (fun _ _ => eq_refl)
                (fun _ => eq_refl) (train_data 0%nat) zero 0) as Ht'.
  unfold quiet in Ht, Ht'.
  destruct (train_pass (train_data 0%nat) zero 0) as [t1 [[]|e]];
    cbn [fst] in Ht, Ht'; cbn.
  - eexists _, _. split; [reflexivity|].
    repeat first
      [ progress cbn [List.filter is_SaveBest is_PrintValidPPL app length]
      | rewrite List.filter_app | rewrite Ht | rewrite Ht' ].
    auto.
  - eexists _, _. split; [reflexivity|].
    repeat first
      [ progress cbn [List.filter is_SaveBest is_PrintValidPPL app length]
      | rewrite List.filter_app | rewrite Ht | rewrite Ht' ].
    repeat split. discriminate.
Qed.
End TrainMore.

Lemma train_pass_counts_witness :
  count is_TrainBatch
    (fst (train_pass 0 Z.add toy_sum Z.div Ok 2 (toy_train 0) 0 0)) = 2%nat
  /\ count is_PrintTrainPPL
       (fst (train_pass 0 Z.add toy_sum Z.div Ok 2 (toy_train 0) 0 0)) = 1%nat.
Proof.
  apply (train_pass_counts 0 Z.add toy_sum Z.div Ok 2 (toy_train 0) 0 0).
  reflexivity.
Defined.

Lemma batch_train_no_epochs_witness :
  toy_batch_train 0 0 = Some ([], Ok (Locals 1000 5 0)).
Proof.
  apply (batch_train_no_epochs 0 1000 Z.add toy_sum Z.div Ok Z.ltb
           toy_train toy_valid 0 2 0%nat).
  lia.
Defined.

Lemma batch_train_saves_at_most_once_witness :
  epoch (Locals 4 5 3) = 3
  /\ ((count is_SaveBest
         [TrainInit; PrintEpoch 0; TrainBatch; TrainBatch; GcCollect;
          PrintStep 2 1; PrintTrainPPL 4; ValidInit; ValidBatch;
          PrintValidPPL 4; SaveBest] = 1%nat
       /\ patience (Locals 4 5 3) = 5
       /\ Z.ltb (best_score (Locals 4 5 3)) 1000 = true)
      \/ (count is_SaveBest
            [TrainInit; PrintEpoch 0; TrainBatch; TrainBatch; GcCollect;
             PrintStep 2 1; PrintTrainPPL 4; ValidInit; ValidBatch;
             PrintValidPPL 4; SaveBest] = 0%nat
          /\ patience (Locals 4 5 3) = 4
          /\ best_score (Locals 4 5 3) = 1000)).
Proof.
  apply (batch_train_saves_at_most_once 0 1000 Z.add toy_sum Z.div Ok Z.ltb
           toy_train toy_valid 3 2 4%nat).
  - lia.
  - reflexivity.
Defined.

Lemma batch_train_empty_validation_fails_witness :
  exists t e,
    batch_train 0 1000 Z.add toy_sum Z.div Ok Z.ltb toy_train (fun _ => [])
      3 2 1 = Some (t, Raise e)
    /\ count is_SaveBest t = 0%nat
    /\ validated t = 0%nat
    /\ (snd (train_pass 0 Z.add toy_sum Z.div Ok 2 (toy_train 0) 0 0) = Ok tt ->
        e = ZeroDivisionError).
Proof.
  apply (batch_train_empty_validation_fails 0 1000 Z.add toy_sum Z.div Ok Z.ltb
           toy_train (fun _ => []) 3 2 0%nat).
  - lia.
  - reflexivity.
Defined.

(** ** RNNLM: predict *)

Section PredictFacts.
Context {F : Type}.
Variable zero : F.
Variable add : F -> F -> F.
Variable np_sum : list F -> F.
Variable div : F -> Z -> F.
Variable math_exp : F -> result F.
Variable strip : string -> string.

Local Abbreviation predict_lines :=
  (predict_lines add np_sum div math_exp strip).
Local Abbreviation predict := (predict zero add np_sum div math_exp strip).

(** X23. On an empty raw file [predict] initialises the test iterator,
    fetches nothing and raises [ZeroDivisionError], whatever the input
    file holds and whether verbose or not. *)
Theorem predict_empty_raw_file (test_data : list (valid_fetch F)) (verbose : bool) :
  predict test_data [] verbose = ([TestInit], Failed ZeroDivisionError).
Proof. reflexivity. Qed.

(** The loop over the raw lines prints no global perplexity. *)
Lemma predict_lines_no_global verbose raw_lines :
  forall test_data gl gw fetched,
    List.filter is_PrintGlobalPPL
      (fst (predict_lines verbose raw_lines test_data gl gw fetched)) = [].
Proof.
  induction raw_lines as [|raw raw_lines IH]; intros test gl gw f; [reflexivity|].
  cbn [RnnLm.predict_lines]. destruct test as [|b test]; [reflexivity|].
  destruct verbose.
  - destruct (math_exp _) as [ppl|e]; [|reflexivity].
    specialize (IH test (add gl (np_sum (v_loss b))) (gw + v_valid_words b) true).
    destruct (predict_lines _ _ _ _ _ _) as [t r]. cbn in *. exact IH.
  - specialize (IH test (add gl (np_sum (v_loss b))) (gw + v_valid_words b) true).
    destruct (predict_lines _ _ _ _ _ _) as [t r]. cbn in *. exact IH.
Qed.

(** With more raw lines than fetches the loop does not finish. *)
Lemma predict_lines_short verbose raw_lines :
  forall test_data gl gw fetched,
    (length test_data < length raw_lines)%nat ->
    (forall a, snd (predict_lines verbose raw_lines test_data gl gw fetched)
               <> Finished a)
    /\ (verbose = false ->
        predict_lines verbose raw_lines test_data gl gw fetched
        = (repeat TestBatch (length test_data), OutOfRange)).
Proof.
  induction raw_lines as [|raw raw_lines IH]; intros test gl gw f Hlen;
    [cbn in Hlen; lia|].
  cbn [RnnLm.predict_lines]. destruct test as [|b test].
  - split; [intros a; discriminate | reflexivity].
  - assert (Hlen' : (length test < length raw_lines)%nat) by (cbn in Hlen; lia).
    specialize (IH test (add gl (np_sum (v_loss b))) (gw + v_valid_words b)
                  true Hlen').
    destruct verbose.
    + destruct (math_exp _) as [ppl|e].
      * destruct (predict_lines _ _ _ _ _ _) as [t r]. cbn in *.
        split; [apply IH | discriminate].
      * split; [intros a; discriminate | discriminate].
    + destruct (predict_lines _ _ _ _ _ _) as [t r]. cbn in *.
      destruct IH as [IH1 IH2]. split; [exact IH1|].
      intros _. specialize (IH2 eq_refl). injection IH2 as -> ->. reflexivity.
Qed.

(** X24. When the raw file has more lines than the input file gives
    fetches, [predict] never prints the global perplexity and does not
    return: quietly, it ends in the [OutOfRangeError] of the exhausted
    iterator after fetching everything there was. *)
Theorem predict_raw_file_too_long (test_data : list (valid_fetch F))
    (raw_lines : list string) (verbose : bool) :
  (length test_data < length raw_lines)%nat ->
  snd (predict test_data raw_lines verbose) <> Finished tt
  /\ count is_PrintGlobalPPL (fst (predict test_data raw_lines verbose)) = 0%nat
  /\ (verbose = false ->
      predict test_data raw_lines verbose
      = (TestInit :: repeat TestBatch (length test_data), OutOfRange)).
Proof.
  intros Hlen. unfold RnnLm.predict, count.
  destruct (predict_lines_short verbose raw_lines test_data zero 0 false Hlen)
    as [Hnot Hquiet].
  pose proof (predict_lines_no_global verbose raw_lines test_data zero 0 false)
    as Hglobal.
  destruct (predict_lines verbose raw_lines test_data zero 0 false)
    as [t [[[gl gw] f]| |e]] eqn:Hrun; cbn [fst snd] in *.
  - exfalso. exact (Hnot _ eq_refl).
  - split; [discriminate|]. split; [cbn; rewrite Hglobal; reflexivity|].
    intros Hv. specialize (Hquiet Hv). injection Hquiet as ->. reflexivity.
  - split; [discriminate|]. split; [cbn; rewrite Hglobal; reflexivity|].
    intros Hv. specialize (Hquiet Hv). discriminate.
Qed.

(** The quiet loop over [n] raw lines with enough fetches adds up the
    first [n] fetches. *)
Lemma predict_lines_quiet raw_lines :
  forall test_data gl gw fetched,
    (length raw_lines <= length test_data)%nat ->
    predict_lines false raw_lines test_data gl gw fetched
    = (repeat TestBatch (length raw_lines),
       Finished
         (fold_left add
            (List.map (fun b => np_sum (v_loss b))
               (take (length raw_lines) test_data)) gl,
          gw + sum_list (List.map v_valid_words (take (length raw_lines) test_data)),
          fetched || negb (Nat.eqb (length raw_lines) 0))).
Proof.
  induction raw_lines as [|raw raw_lines IH]; intros test gl gw f Hlen.
  - cbn. rewrite Z.add_0_r, orb_false_r. reflexivity.
  - destruct test as [|b test]; [cbn in Hlen; lia|].
    cbn [RnnLm.predict_lines].
    rewrite IH by (cbn in Hlen; lia).
    cbn. unfold sum_list. cbn. rewrite orb_true_r, Z.add_assoc. reflexivity.
Qed.

(** X25. Quiet [predict] on a raw file of [n >= 1] lines and an input
    file with at least [n] fetches reads exactly the first [n] fetches,
    prints nothing per line, and computes the global perplexity from the
    losses and word counts summed over those [n] fetches; the only line
    it prints is that perplexity, unless [math.exp] overflows. *)
Theorem predict_quiet_totals (test_data : list (valid_fetch F))
    (raw_lines : list string) :
  (1 <= length raw_lines)%nat ->
  (length raw_lines <= length test_data)%nat ->
  let n := length raw_lines in
  let total_loss :=
    fold_left add (List.map (fun b => np_sum (v_loss b)) (take n test_data)) zero in
  let total_words := sum_list (List.map v_valid_words (take n test_data)) in
  predict test_data raw_lines false
  = match math_exp (div total_loss total_words) with
    | Ok global_dev_ppl =>
        (TestInit :: repeat TestBatch n ++ [PrintGlobalPPL global_dev_ppl],
         Finished tt)
    | Raise e => (TestInit :: repeat TestBatch n, Failed e)
    end.
Proof.
  intros Hn Hlen. cbn zeta. unfold RnnLm.predict.
  rewrite (predict_lines_quiet raw_lines test_data zero 0 false Hlen).
  destruct raw_lines as [|raw raw_lines]; [cbn in Hn; lia|].
  cbn [orb negb Nat.eqb length]. rewrite Z.add_0_l. reflexivity.
Qed.
End PredictFacts.

Lemma predict_raw_file_too_long_witness :
  snd (predict 0 Z.add toy_sum Z.div Ok (fun s => s)
         [ValidFetch [6; 2] 2] ["a b"; "c d"]%string false) <> Finished tt
  /\ count is_PrintGlobalPPL
       (fst (predict 0 Z.add toy_sum Z.div Ok (fun s => s)
               [ValidFetch [6; 2] 2] ["a b"; "c d"]%string false)) = 0%nat
  /\ (false = false ->
      predict 0 Z.add toy_sum Z.div Ok (fun s => s)
        [ValidFetch [6; 2] 2] ["a b"; "c d"]%string false
      = ([TestInit; TestBatch], OutOfRange)).
Proof.
  apply (predict_raw_file_too_long 0 Z.add toy_sum Z.div Ok (fun s => s)
           [ValidFetch [6; 2] 2] ["a b"; "c d"]%string false).
  simpl. lia.
Defined.

Lemma predict_quiet_totals_witness :
  predict 0 Z.add toy_sum Z.div Ok (fun s => s)
    [ValidFetch [6; 2] 2; ValidFetch [4] 1; ValidFetch [9] 3]
    ["a b c"; "d e"]%string false
  = ([TestInit; TestBatch; TestBatch; PrintGlobalPPL 4], Finished tt).
Proof.
  apply (predict_quiet_totals 0 Z.add toy_sum Z.div Ok (fun s => s)
           [ValidFetch [6; 2] 2; ValidFetch [4] 1; ValidFetch [9] 3]
           ["a b c"; "d e"]%string); simpl; lia.
Defined.
